(** * Verification of [mypy/git.py]: git submodule integrity checks

    The module shells out to [git], parses the text it prints and walks a
    short decision tree.  The development embeds

    - the Python primitives the module relies on ([bytes.splitlines],
      [bytes.split], [bytes.strip], [os.path.join], [pipes.quote],
      [subprocess.check_output]);
    - the part of the POSIX shell that the command lines built by
      [run_in_dir] exercise (word splitting, quoting, [;] sequencing and the
      [cd] builtin);
    - the functions of [git.py] themselves, as computations that return a
      value or raise, and that record every interaction with the outside
      world (file probes, processes, lines printed on stderr) in a trace.

    Representation.  Python [bytes] and [str] values are both [string]s
    (sequences of 8-bit characters); a [str] is represented by its encoding
    in the filesystem encoding, so that [name.decode(fsencoding)] is the
    identity where it succeeds.  The host is POSIX ([os.path] is
    [posixpath], the shell is [/bin/sh], which is assumed to exist). *)

From Stdlib Require Import String Ascii List ZArith Bool Lia.
Import ListNotations.

Open Scope list_scope.
Open Scope string_scope.

Set Implicit Arguments.

(** ** Characters *)

Module Ch.

Definition nul : ascii := "000"%char.
Definition tab : ascii := "009"%char.
Definition lf : ascii := "010"%char.
Definition vt : ascii := "011"%char.
Definition ff : ascii := "012"%char.
Definition cr : ascii := "013"%char.
Definition space : ascii := " "%char.
Definition dquote : ascii := "034"%char.
Definition squote : ascii := "039"%char.

Definition code (c : ascii) : N := N_of_ascii c.

Definition between (lo hi : N) (c : ascii) : bool :=
  (lo <=? code c)%N && (code c <=? hi)%N.

(** [\w] under [re.ASCII]: letters, digits and the underscore. *)
Definition is_word (c : ascii) : bool :=
  between 48 57 c || between 65 90 c || between 97 122 c
  || Ascii.eqb c "_".

(** The whitespace that [bytes.strip()] removes. *)
Definition is_py_space (c : ascii) : bool :=
  Ascii.eqb c space || Ascii.eqb c tab || Ascii.eqb c lf
  || Ascii.eqb c cr || Ascii.eqb c vt || Ascii.eqb c ff.

End Ch.

(** ** Python primitives *)

Module Py.

(** Exceptions that can cross the functions of the module.  [sys.exit(n)]
    raises [SystemExit n]; nothing in [git.py] catches it, so it ends the
    process with status [n]. *)
Inductive exn : Type :=
| CalledProcessError (returncode : Z)
| FileNotFoundError
| IndexError
| ValueError_unpack
| ValueError_null_byte
| UnicodeDecodeError
| SystemExit (status : Z).

Inductive outcome (A : Type) : Type :=
| Ret (a : A)
| Throw (e : exn).
Arguments Throw {A} e.

(** [s.startswith(c)] and [s.endswith(c)] for a one-character [c]. *)
Definition startswith (c : ascii) (s : string) : bool :=
  match s with
  | String d _ => Ascii.eqb d c
  | EmptyString => false
  end.

Fixpoint endswith (c : ascii) (s : string) : bool :=
  match s with
  | EmptyString => false
  | String d EmptyString => Ascii.eqb d c
  | String _ s' => endswith c s'
  end.

Fixpoint contains (c : ascii) (s : string) : bool :=
  match s with
  | EmptyString => false
  | String d s' => Ascii.eqb d c || contains c s'
  end.

(** [bytes.splitlines()]: lines end at LF, CR or CR LF; the terminators
    are dropped and a final terminator opens no further line. *)
Fixpoint splitlines (s : string) : list string :=
  match s with
  | EmptyString => []
  | String c s' =>
      if Ascii.eqb c Ch.lf then EmptyString :: splitlines s'
      else if Ascii.eqb c Ch.cr then
        match s' with
        | String d s'' =>
            if Ascii.eqb d Ch.lf then EmptyString :: splitlines s''
            else EmptyString :: splitlines s'
        | EmptyString => [EmptyString]
        end
      else
        match splitlines s' with
        | [] => [String c EmptyString]
        | l :: ls => String c l :: ls
        end
  end.

(** [s.split(sep)] for a one-byte separator: a cut at every occurrence of
    [sep], empty fields kept; the result is never empty. *)
Fixpoint split (sep : ascii) (s : string) : list string :=
  match s with
  | EmptyString => [EmptyString]
  | String c s' =>
      if Ascii.eqb c sep then EmptyString :: split sep s'
      else
        match split sep s' with
        | [] => [String c EmptyString]
        | f :: fs => String c f :: fs
        end
  end.

Fixpoint lstrip (s : string) : string :=
  match s with
  | String c s' => if Ch.is_py_space c then lstrip s' else s
  | EmptyString => EmptyString
  end.

Fixpoint rstrip (s : string) : string :=
  match s with
  | EmptyString => EmptyString
  | String c s' =>
      match rstrip s' with
      | EmptyString => if Ch.is_py_space c then EmptyString
                       else String c EmptyString
      | r => String c r
      end
  end.

(** [bytes.strip()] *)
Definition strip (s : string) : string := rstrip (lstrip s).

(** [os.path.join(a, b)] of [posixpath]. *)
Definition os_path_join (a b : string) : string :=
  if startswith "/" b then b
  else if String.eqb a "" || endswith "/" a then a ++ b
  else a ++ "/" ++ b.

(** [pipes.quote] (which is [shlex.quote]).  A character is safe when it
    is outside the class [[^\w@%+=:,./-]] compiled with [re.ASCII]. *)
Definition quote_safe (c : ascii) : bool :=
  Ch.is_word c || contains c "@%+=:,./-".

Fixpoint all_safe (s : string) : bool :=
  match s with
  | EmptyString => true
  | String c s' => quote_safe c && all_safe s'
  end.

(** [s.replace(q, q'')] where [q] is a single quote and [q''] the five
    characters: single quote, double quote, single quote, double quote,
    single quote. *)
Fixpoint replace_squote (s : string) : string :=
  match s with
  | EmptyString => EmptyString
  | String c s' =>
      if Ascii.eqb c Ch.squote then
        String Ch.squote (String Ch.dquote (String Ch.squote
          (String Ch.dquote (String Ch.squote (replace_squote s')))))
      else String c (replace_squote s')
  end.

Definition quote (s : string) : string :=
  match s with
  | EmptyString => "''"
  | _ =>
      if all_safe s then s
      else String Ch.squote (replace_squote s ++ "'")
  end.

End Py.
Import Py.

(** ** The shell fragment

  [run_in_dir] hands [/bin/sh -c] one line.  The lexer below covers the
  lines made of simple commands separated by [;] or newlines whose words
  are built from plain characters, single-quoted strings and double-quoted
  strings without expansions.  Everything else (operators, expansions,
  globbing, comments, backslashes) is reported as outside the fragment
  with [None], and so is a line that the shell would reject. *)

Module Sh.

(** Characters with a meaning of their own in an unquoted word. *)
Definition special (c : ascii) : bool :=
  contains c "|&<>()$`\*?[#~{}!^".

Inductive mode : Type := Unquoted | InSingle | InDouble.

(** The word under construction ([None] between words) is closed into the
    arguments of the current command. *)
Definition close_word (cur : option string) (args : list string)
  : list string :=
  match cur with
  | Some w => (args ++ [w])%list
  | None => args
  end.

Definition close_cmd (args : list string) (cmds : list (list string))
  : list (list string) :=
  match args with
  | [] => cmds
  | _ => (cmds ++ [args])%list
  end.

Definition extend (cur : option string) (c : ascii) : option string :=
  match cur with
  | Some w => Some (w ++ String c EmptyString)
  | None => Some (String c EmptyString)
  end.

Definition open_word (cur : option string) : option string :=
  match cur with
  | Some w => Some w
  | None => Some EmptyString
  end.

Fixpoint lex_from (m : mode) (cur : option string) (args : list string)
    (cmds : list (list string)) (s : string)
  : option (list (list string)) :=
  match s with
  | EmptyString =>
      match m with
      | Unquoted => Some (close_cmd (close_word cur args) cmds)
      | _ => None
      end
  | String c s' =>
      match m with
      | InSingle =>
          if Ascii.eqb c Ch.squote then lex_from Unquoted cur args cmds s'
          else lex_from InSingle (extend cur c) args cmds s'
      | InDouble =>
          if Ascii.eqb c Ch.dquote then lex_from Unquoted cur args cmds s'
          else if contains c "$`\" then None
          else lex_from InDouble (extend cur c) args cmds s'
      | Unquoted =>
          if Ascii.eqb c Ch.space || Ascii.eqb c Ch.tab then
            lex_from Unquoted None (close_word cur args) cmds s'
          else if Ascii.eqb c ";" then
            match close_word cur args with
            | [] => None
            | a => lex_from Unquoted None [] (cmds ++ [a])%list s'
            end
          else if Ascii.eqb c Ch.lf then
            lex_from Unquoted None []
              (close_cmd (close_word cur args) cmds) s'
          else if Ascii.eqb c Ch.squote then
            lex_from InSingle (open_word cur) args cmds s'
          else if Ascii.eqb c Ch.dquote then
            lex_from InDouble (open_word cur) args cmds s'
          else if special c then None
          else lex_from Unquoted (extend cur c) args cmds s'
      end
  end.

Definition lex (line : string) : option (list (list string)) :=
  lex_from Unquoted None [] [] line.

(** The commands the model gives a meaning to: the [cd] builtin and the
    external [git]. *)
Definition known_cmd (argv : list string) : bool :=
  match argv with
  | name :: _ => String.eqb name "cd" || String.eqb name "git"
  | [] => false
  end.

Definition in_fragment (prog : list (list string)) : bool :=
  forallb known_cmd prog.

End Sh.

(** ** The outside world

    What the module can observe of its environment.  The world stays the
    same during one call of the checker: every probe is a function of it. *)

Inductive spawned : Type :=
| ExecFailed                                 (* no such executable *)
| Completed (returncode : Z) (stdout : string).

Record World : Type := {
  (** [os.path.exists] *)
  path_exists : string -> bool;
  (** does [bytes.decode(sys.getfilesystemencoding())] accept the bytes? *)
  fs_decodable : string -> bool;
  (** a program started without a shell, looked up on the search path *)
  spawn : list string -> spawned;
  (** the working directory of the process *)
  proc_cwd : string;
  (** the [cd] builtin: from a working directory and the operands, the exit
      status, what is written on stdout and the working directory left *)
  sh_cd : string -> list string -> Z * string * string;
  (** an external command run by the shell in a working directory: exit
      status and stdout *)
  sh_exec : string -> list string -> Z * string;
  (** a line outside the modelled fragment: exit status and stdout *)
  sh_line : string -> Z * string
}.

(** Interactions with the world, in the order they happen. *)
Inductive effect : Type :=
| Exists (path : string)
| Spawn (argv : list string)
| ShCd (cwd : string) (operands : list string)
| ShExec (cwd : string) (argv : list string)
| ShLine (line : string)
| Print (text : string).          (* one [print(text, file=sys.stderr)] *)

(** What a trace leaves on stderr: [print] ends every text with a newline. *)
Fixpoint stderr_of (t : list effect) : string :=
  match t with
  | [] => EmptyString
  | Print s :: t' => s ++ String Ch.lf (stderr_of t')
  | _ :: t' => stderr_of t'
  end.

(** ** Computations: an outcome and the trace of effects *)

Definition M (A : Type) : Type := outcome A * list effect.

Definition ret {A} (a : A) : M A := (Ret a, []).

Definition throw {A} (e : exn) : M A := (Throw e, []).

Definition emit (e : effect) : M unit := (Ret tt, [e]).

Definition bind {A B} (m : M A) (k : A -> M B) : M B :=
  match m with
  | (Ret a, t) => let (o, t') := k a in (o, (t ++ t')%list)
  | (Throw e, t) => (Throw e, t)
  end.

(** [try: m except <handled>: h] *)
Definition try_except {A} (m : M A) (handled : exn -> bool) (h : M A) : M A :=
  match m with
  | (Throw e, t) =>
      if handled e then let (o, t') := h in (o, (t ++ t')%list)
      else (Throw e, t)
  | r => r
  end.

Notation "x <- m ;; k" := (bind m (fun x => k))
  (at level 61, m at next level, right associativity).
Notation "m ;;; k" := (bind m (fun _ => k))
  (at level 61, right associativity).

Definition result {A} (m : M A) : outcome A := fst m.
Definition trace {A} (m : M A) : list effect := snd m.

(** [print(text, file=sys.stderr)] and [sys.exit(status)] *)
Definition print_stderr (text : string) : M unit := emit (Print text).
Definition sys_exit {A} (status : Z) : M A := throw (SystemExit status).

(** ** Running the shell *)

(** The commands of a lexed line run one after the other, whatever their
    exit status; the status of the line is that of its last command and its
    output is everything written on stdout. *)
Fixpoint sh_steps (w : World) (cwd : string) (prog : list (list string))
    (status : Z) (out : string) : (Z * string) * list effect :=
  match prog with
  | [] => ((status, out), [])
  | argv :: rest =>
      match argv with
      | name :: operands =>
          if String.eqb name "cd" then
            let '(st, o, cwd') := sh_cd w cwd operands in
            let (r, t) := sh_steps w cwd' rest st (out ++ o) in
            (r, ShCd cwd operands :: t)
          else
            let (st, o) := sh_exec w cwd argv in
            let (r, t) := sh_steps w cwd rest st (out ++ o) in
            (r, ShExec cwd argv :: t)
      | [] => sh_steps w cwd rest status out
      end
  end.

(** [/bin/sh -c line] started in the working directory of the process. *)
Definition sh_run (w : World) (line : string) : (Z * string) * list effect :=
  match Sh.lex line with
  | Some prog =>
      if Sh.in_fragment prog then sh_steps w (proc_cwd w) prog 0 EmptyString
      else (sh_line w line, [ShLine line])
  | None => (sh_line w line, [ShLine line])
  end.

(** [subprocess.check_output(argv)]: the output of a run that exits with
    status 0, [CalledProcessError] for another status, and the error of the
    failed [exec] when the program cannot be started. *)
Definition check_output (w : World) (argv : list string) : M string :=
  if existsb (contains Ch.nul) argv then throw ValueError_null_byte
  else
    match spawn w argv with
    | ExecFailed => (Throw FileNotFoundError, [Spawn argv])
    | Completed rc out =>
        if (rc =? 0)%Z then (Ret out, [Spawn argv])
        else (Throw (CalledProcessError rc), [Spawn argv])
    end.

(** [subprocess.check_output(line, shell=True)] *)
Definition check_output_shell (w : World) (line : string) : M string :=
  if contains Ch.nul line then throw ValueError_null_byte
  else
    let '((rc, out), t) := sh_run w line in
    if (rc =? 0)%Z then (Ret out, t)
    else (Throw (CalledProcessError rc), t).

(** ** Generators

    A generator that only computes between two [yield]s is the sequence of
    what it yields, ended by exhaustion or by the exception raised when the
    consumer asks for the next value. *)
Inductive gen (A : Type) : Type :=
| GStop
| GYield (a : A) (rest : gen A)
| GRaise (e : exn).
Arguments GStop {A}.
Arguments GRaise {A} e.

(** [for a in g: body a] *)
Fixpoint for_each {A} (g : gen A) (body : A -> M unit) : M unit :=
  match g with
  | GStop => ret tt
  | GRaise e => throw e
  | GYield a g' => body a ;;; for_each g' body
  end.

(** [list(g)]: the values yielded, and the exception if one ends the run *)
Fixpoint drain {A} (g : gen A) : list A * option exn :=
  match g with
  | GStop => ([], None)
  | GRaise e => ([], Some e)
  | GYield a g' => let (l, e) := drain g' in (a :: l, e)
  end.

(** ** The functions of [git.py] *)

Definition is_git_repo (w : World) (dir : string) : M bool :=
  let p := os_path_join dir ".git" in
  emit (Exists p) ;;; ret (path_exists w p).

Definition is_CalledProcessError (e : exn) : bool :=
  match e with
  | CalledProcessError _ => true
  | _ => false
  end.

Definition have_git (w : World) : M bool :=
  try_except
    (check_output w ["git"; "config"; "-l"] ;;; ret true)
    is_CalledProcessError
    (ret false).

Definition cd_line (dir command : string) : string :=
  "cd " ++ quote dir ++ "; " ++ command.

Definition run_in_dir (w : World) (dir command : string) : M string :=
  check_output_shell w (cd_line dir command).

(** One line of [git submodule status]: the body of the loop of
    [get_submodules]. *)
Definition submodule_of_line (w : World) (line : string)
  : outcome (ascii * string * string) :=
  match line with
  | EmptyString => Throw IndexError
  | String status rest =>
      match split " " rest with
      | sha5 :: name :: _ =>
          if fs_decodable w name then Ret (status, sha5, name)
          else Throw UnicodeDecodeError
      | _ => Throw ValueError_unpack
      end
  end.

Fixpoint submodules_of_lines (w : World) (lines : list string)
  : gen (ascii * string * string) :=
  match lines with
  | [] => GStop
  | line :: lines' =>
      match submodule_of_line w line with
      | Ret r => GYield r (submodules_of_lines w lines')
      | Throw e => GRaise e
      end
  end.

Definition get_submodules (w : World) (dir : string)
  : M (gen (ascii * string * string)) :=
  output <- run_in_dir w dir "git submodule status" ;;
  ret (submodules_of_lines w (splitlines output)).

Definition git_revision (w : World) (dir : string) : M string :=
  out <- run_in_dir w dir "git rev-parse HEAD" ;;
  ret (strip out).

Definition is_dirty (w : World) (dir : string) : M bool :=
  out <- run_in_dir w dir "git status -uno --porcelain" ;;
  ret (negb (String.eqb (strip out) "")).

Definition has_extra_files (w : World) (dir : string) : M bool :=
  out <- run_in_dir w dir "git clean --dry-run -d" ;;
  ret (negb (String.eqb (strip out) "")).

Definition warn_no_git_executable : M unit :=
  print_stderr
    "Warning: Couldn't check git integrity. git executable not in path.".

Definition warn_dirty (dir : string) : M unit :=
  print_stderr ("Warning: git module '" ++ dir ++ "' has uncommitted changes.").

Definition warn_extra_files (dir : string) : M unit :=
  print_stderr ("Warning: git module '" ++ dir ++ "' has untracked files.").

Definition error_submodule_not_initialized (name dir : string) : M unit :=
  print_stderr ("Submodule '" ++ name ++ "' not initialized.") ;;;
  print_stderr "Please run:" ;;;
  print_stderr ("  cd " ++ quote dir) ;;;
  print_stderr ("  git submodule init " ++ name).

Definition error_submodule_not_updated (name dir : string) : M unit :=
  print_stderr ("Submodule '" ++ name ++ "' not updated.") ;;;
  print_stderr "Please run:" ;;;
  print_stderr ("  cd " ++ quote dir) ;;;
  print_stderr ("  git submodule update " ++ name).

(** The body of the loop of [verify_git_integrity_or_abort]. *)
Definition check_submodule (w : World) (datadir : string)
    (r : ascii * string * string) : M unit :=
  let '(_, revision, submodule) := r in
  let submodule_path := os_path_join datadir submodule in
  repo <- is_git_repo w submodule_path ;;
  if negb repo then
    error_submodule_not_initialized submodule datadir ;;; sys_exit 1
  else
    head <- git_revision w submodule_path ;;
    if negb (String.eqb revision head) then
      error_submodule_not_updated submodule datadir ;;; sys_exit 1
    else
      dirty <- is_dirty w submodule_path ;;
      if dirty then warn_dirty submodule
      else
        extra <- has_extra_files w submodule_path ;;
        if extra then warn_extra_files submodule
        else ret tt.

Definition verify_git_integrity_or_abort (w : World) (datadir : string)
  : M unit :=
  repo <- is_git_repo w datadir ;;
  if negb repo then ret tt
  else
    git <- have_git w ;;
    if negb git then warn_no_git_executable
    else
      subs <- get_submodules w datadir ;;
      for_each subs (check_submodule w datadir).

(** What [run_in_dir] comes to for a [git] command: the shell changes
    directory with the single operand [dir], then runs [argv] in the
    directory it is left in. *)
Definition run_git_in (w : World) (dir : string) (argv : list string)
  : M string :=
  if contains Ch.nul dir then throw ValueError_null_byte
  else
    let '(_, o, d) := sh_cd w (proc_cwd w) [dir] in
    let (rc, o') := sh_exec w d argv in
    ((if (rc =? 0)%Z then Ret (o ++ o') else Throw (CalledProcessError rc)),
     [ShCd (proc_cwd w) [dir]; ShExec d argv]).

(** The checks of the loop over a listing already cut into lines. *)
Definition check_all (w : World) (datadir : string) (lines : list string)
  : M unit :=
  for_each (submodules_of_lines w lines) (check_submodule w datadir).

(** What happens before the loop when the root is a repository, the probe
    for [git] succeeds and the listing is obtained. *)
Definition prelude_trace (w : World) (datadir : string) : list effect :=
  (Exists (os_path_join datadir ".git") :: trace (have_git w)
   ++ trace (run_in_dir w datadir "git submodule status"))%list.

(** ** Vocabulary of the statements *)

Fixpoint argv_eqb (a b : list string) : bool :=
  match a, b with
  | [], [] => true
  | x :: a', y :: b' => String.eqb x y && argv_eqb a' b'
  | _, _ => false
  end.

Definition probe_argv : list string := ["git"; "config"; "-l"].
Definition status_argv : list string := ["git"; "submodule"; "status"].
Definition revision_argv : list string := ["git"; "rev-parse"; "HEAD"].
Definition dirty_argv : list string :=
  ["git"; "status"; "-uno"; "--porcelain"].
Definition extra_argv : list string := ["git"; "clean"; "--dry-run"; "-d"].

(** The queries of the module: configuration listing, submodule status,
    head revision, porcelain status, dry-run clean. *)
Definition git_queries : list (list string) :=
  [status_argv; revision_argv; dirty_argv; extra_argv].

(** An effect that leaves the repository as it is: a file probe, a line on
    stderr, a change of directory of the shell, or one of the queries. *)
Definition read_only (e : effect) : bool :=
  match e with
  | Exists _ => true
  | Print _ => true
  | Spawn argv => argv_eqb argv probe_argv
  | ShCd _ _ => true
  | ShExec _ argv => existsb (argv_eqb argv) git_queries
  | ShLine _ => false
  end.

(** A line of the listing whose checks all run and leave the loop going. *)
Definition completes (w : World) (datadir line : string) : Prop :=
  exists r, submodule_of_line w line = Ret r
            /\ result (check_submodule w datadir r) = Ret tt.

(** A submodule that is not a repository, or whose head is not the
    recorded revision. *)
Definition has_repo (w : World) (datadir name : string) : bool :=
  path_exists w (os_path_join (os_path_join datadir name) ".git").

Definition fatal (w : World) (datadir revision name : string) : Prop :=
  has_repo w datadir name = false
  \/ (has_repo w datadir name = true
      /\ exists head,
           result (git_revision w (os_path_join datadir name)) = Ret head
           /\ head <> revision).

(** A line for a submodule in order: a repository at the recorded revision
    with neither tracked changes nor untracked files. *)
Definition clean (w : World) (datadir line : string) : Prop :=
  exists status revision name,
    submodule_of_line w line = Ret (status, revision, name)
    /\ has_repo w datadir name = true
    /\ result (git_revision w (os_path_join datadir name)) = Ret revision
    /\ result (is_dirty w (os_path_join datadir name)) = Ret false
    /\ result (has_extra_files w (os_path_join datadir name)) = Ret false.

Definition newline : string := String Ch.lf EmptyString.

Definition not_initialized_text (name dir : string) : string :=
  "Submodule '" ++ name ++ "' not initialized." ++ newline
  ++ "Please run:" ++ newline
  ++ "  cd " ++ quote dir ++ newline
  ++ "  git submodule init " ++ name ++ newline.

Definition not_updated_text (name dir : string) : string :=
  "Submodule '" ++ name ++ "' not updated." ++ newline
  ++ "Please run:" ++ newline
  ++ "  cd " ++ quote dir ++ newline
  ++ "  git submodule update " ++ name ++ newline.

Definition dirty_text (name : string) : string :=
  "Warning: git module '" ++ name ++ "' has uncommitted changes." ++ newline.

Definition no_git_text : string :=
  "Warning: Couldn't check git integrity. git executable not in path."
  ++ newline.

(** Two lines that differ at most in their first byte. *)
Definition same_but_marker (l1 l2 : string) : Prop :=
  match l1, l2 with
  | String _ t1, String _ t2 => t1 = t2
  | _, _ => False
  end.

(** Two listings, obtained or failed, that differ at most in the first
    byte of each line. *)
Definition same_but_markers (o1 o2 : outcome string) : Prop :=
  match o1, o2 with
  | Ret out1, Ret out2 =>
      Forall2 same_but_marker (splitlines out1) (splitlines out2)
  | Throw e1, Throw e2 => e1 = e2
  | _, _ => False
  end.

(** The world [w] where [git submodule status] answers [f cwd] in the
    directory [cwd]. *)
Definition with_submodule_status (w : World) (f : string -> Z * string)
  : World :=
  {| path_exists := path_exists w;
     fs_decodable := fs_decodable w;
     spawn := spawn w;
     proc_cwd := proc_cwd w;
     sh_cd := sh_cd w;
     sh_exec := fun cwd argv =>
       if argv_eqb argv status_argv then f cwd else sh_exec w cwd argv;
     sh_line := sh_line w |}.

(** ** The parse of a line as the specification words it

    The first byte is the status marker; the remainder is cut at runs of
    whitespace into the hash, the name and fields that are ignored. *)

Fixpoint field_of (s : string) : string :=
  match s with
  | EmptyString => EmptyString
  | String c s' => if Ch.is_py_space c then EmptyString
                   else String c (field_of s')
  end.

Fixpoint after_field (s : string) : string :=
  match s with
  | EmptyString => EmptyString
  | String c s' => if Ch.is_py_space c then lstrip s else after_field s'
  end.

Definition spec_submodule_of_line (line : string)
  : option (ascii * string * string) :=
  match line with
  | EmptyString => None
  | String status rest =>
      Some (status, field_of rest, field_of (after_field rest))
  end.

(** ** Concrete worlds *)

Fixpoint lookup_cmd (cwd : string) (argv : list string)
    (table : list (string * list string * (Z * string))) : Z * string :=
  match table with
  | [] => (128%Z, EmptyString)
  | (d, a, r) :: table' =>
      if String.eqb d cwd && argv_eqb a argv then r
      else lookup_cmd cwd argv table'
  end.

Fixpoint is_ascii (s : string) : bool :=
  match s with
  | EmptyString => true
  | String c s' => (Ch.code c <? 128)%N && is_ascii s'
  end.

(** A world given by the paths that exist, the directories the shell can
    enter, the answer to a program started without a shell and the answers
    of [git] per directory.  The process runs in [/]. *)
Definition table_world (files dirs : list string) (git : spawned)
    (table : list (string * list string * (Z * string))) : World :=
  {| path_exists := fun p => existsb (String.eqb p) files;
     fs_decodable := is_ascii;
     spawn := fun _ => git;
     proc_cwd := "/";
     sh_cd := fun cwd operands =>
       match operands with
       | [d] => if existsb (String.eqb d) dirs then (0%Z, EmptyString, d)
                else (1%Z, EmptyString, cwd)
       | _ => (1%Z, EmptyString, cwd)
       end;
     sh_exec := fun cwd argv => lookup_cmd cwd argv table;
     sh_line := fun _ => (2%Z, EmptyString) |}.

Definition lines (l : list string) : string :=
  fold_right (fun x acc => x ++ newline ++ acc) EmptyString l.

(** A root with the submodules [A] (at its recorded revision, nothing
    changed), [B] (recorded at [def5678], checked out at [000aaaa]) and
    [C] (never initialised). *)
Definition world_AB : World :=
  table_world
    ["/repo/.git"; "/repo/A/.git"; "/repo/B/.git"]
    ["/repo"; "/repo/A"; "/repo/B"]
    (Completed 0 "user.name=dev")
    [("/repo", status_argv, (0%Z, lines ["+abc1234 A (heads/master)";
                                         "+def5678 B";
                                         "-0123456 C"]));
     ("/repo/A", revision_argv, (0%Z, lines ["abc1234"]));
     ("/repo/A", dirty_argv, (0%Z, EmptyString));
     ("/repo/A", extra_argv, (0%Z, EmptyString));
     ("/repo/B", revision_argv, (0%Z, lines ["000aaaa"]))].

(** A root whose submodule [A] has a tracked file changed and whose
    submodule [B] is in order; [listing] is what the status command says. *)
Definition world_dirty (listing : string) : World :=
  table_world
    ["/repo/.git"; "/repo/A/.git"; "/repo/B/.git"]
    ["/repo"; "/repo/A"; "/repo/B"]
    (Completed 0 "user.name=dev")
    [("/repo", status_argv, (0%Z, listing));
     ("/repo/A", revision_argv, (0%Z, lines ["abc1234"]));
     ("/repo/A", dirty_argv, (0%Z, lines [" M setup.py"]));
     ("/repo/B", revision_argv, (0%Z, lines ["def5678"]));
     ("/repo/B", dirty_argv, (0%Z, EmptyString));
     ("/repo/B", extra_argv, (0%Z, EmptyString))].

Definition listing_AB : string := lines [" abc1234 A"; " def5678 B"].

(** A root with two submodules in order. *)
Definition world_clean : World :=
  table_world
    ["/repo/.git"; "/repo/A/.git"; "/repo/B/.git"]
    ["/repo"; "/repo/A"; "/repo/B"]
    (Completed 0 "user.name=dev")
    [("/repo", status_argv, (0%Z, listing_AB));
     ("/repo/A", revision_argv, (0%Z, lines ["abc1234"]));
     ("/repo/A", dirty_argv, (0%Z, EmptyString));
     ("/repo/A", extra_argv, (0%Z, EmptyString));
     ("/repo/B", revision_argv, (0%Z, lines ["def5678"]));
     ("/repo/B", dirty_argv, (0%Z, EmptyString));
     ("/repo/B", extra_argv, (0%Z, EmptyString))].

(** A root under version control on a host where no [git] is installed:
    starting the program fails, and the shell reports status 127 for a
    command it cannot find. *)
Definition world_no_git : World :=
  {| path_exists := fun p => String.eqb p "/repo/.git";
     fs_decodable := is_ascii;
     spawn := fun _ => ExecFailed;
     proc_cwd := "/";
     sh_cd := fun cwd operands =>
       match operands with
       | [d] => if String.eqb d "/repo" then (0%Z, EmptyString, d)
                else (1%Z, EmptyString, cwd)
       | _ => (1%Z, EmptyString, cwd)
       end;
     sh_exec := fun _ _ => (127%Z, EmptyString);
     sh_line := fun _ => (2%Z, EmptyString) |}.

(** A directory whose name has a space and a quote in it. *)
Definition odd_dir : string := "/srv/my repo's".


(** The texts printed on stderr, one per call of [print]. *)
Fixpoint printed (t : list effect) : list string :=
  match t with
  | [] => []
  | Print s :: t' => s :: printed t'
  | _ :: t' => printed t'
  end.

(** A line of the listing that [get_submodules] turns into a record. *)
Definition parses (w : World) (line : string) : Prop :=
  exists r, submodule_of_line w line = Ret r.

Definition dirty_warning (name : string) : string :=
  "Warning: git module '" ++ name ++ "' has uncommitted changes.".

(** ** Further vocabulary *)

Definition extra_warning (name : string) : string :=
  "Warning: git module '" ++ name ++ "' has untracked files.".

(** The run of [git clean --dry-run -d]. *)
Definition is_extra_query (e : effect) : bool :=
  match e with
  | ShExec _ argv => argv_eqb argv extra_argv
  | _ => false
  end.

(** A process or a shell command. *)
Definition is_command (e : effect) : bool :=
  match e with
  | Spawn _ | ShCd _ _ | ShExec _ _ | ShLine _ => true
  | Exists _ | Print _ => false
  end.

(** Only whitespace (or nothing at all). *)
Fixpoint all_space (s : string) : bool :=
  match s with
  | EmptyString => true
  | String c s' => Ch.is_py_space c && all_space s'
  end.

(** No whitespace anywhere. *)
Fixpoint no_space (s : string) : bool :=
  match s with
  | EmptyString => true
  | String c s' => negb (Ch.is_py_space c) && no_space s'
  end.

(** No line terminator. *)
Definition one_line (s : string) : bool :=
  negb (contains Ch.lf s) && negb (contains Ch.cr s).

(** A query of a submodule that fails with [e] before any verdict. *)
Definition query_fails (w : World) (datadir revision name : string)
    (e : exn) : Prop :=
  let p := os_path_join datadir name in
  result (git_revision w p) = Throw e
  \/ (result (git_revision w p) = Ret revision
      /\ result (is_dirty w p) = Throw e)
  \/ (result (git_revision w p) = Ret revision
      /\ result (is_dirty w p) = Ret false
      /\ result (has_extra_files w p) = Throw e).

(** The line [git submodule status] prints for a record. *)
Definition line_of (r : ascii * string * string) : string :=
  let '(status, sha5, name) := r in
  String status (sha5 ++ " " ++ name).

(** A record that a line can carry: no line terminator in it, no space in
    its hash or its name, and a name the filesystem encoding decodes. *)
Definition record_ok (w : World) (r : ascii * string * string) : bool :=
  let '(status, sha5, name) := r in
  one_line (String status EmptyString)
  && one_line sha5 && negb (contains " " sha5)
  && one_line name && negb (contains " " name)
  && fs_decodable w name.






(** A root whose [git] is installed but broken: the probe exits with
    status 128. *)
Definition world_broken_git : World :=
  table_world ["/repo/.git"] ["/repo"] (Completed 128 EmptyString) [].

(** A root whose submodule [A] holds a file that is not tracked. *)
Definition world_untracked : World :=
  table_world
    ["/repo/.git"; "/repo/A/.git"; "/repo/B/.git"]
    ["/repo"; "/repo/A"; "/repo/B"]
    (Completed 0 "user.name=dev")
    [("/repo", status_argv, (0%Z, listing_AB));
     ("/repo/A", revision_argv, (0%Z, lines ["abc1234"]));
     ("/repo/A", dirty_argv, (0%Z, EmptyString));
     ("/repo/A", extra_argv, (0%Z, lines ["Would remove notes.txt"]));
     ("/repo/B", revision_argv, (0%Z, lines ["def5678"]));
     ("/repo/B", dirty_argv, (0%Z, EmptyString));
     ("/repo/B", extra_argv, (0%Z, EmptyString))].

(** A root whose listing cannot be obtained: the status command exits with
    status 128. *)
Definition world_no_listing : World :=
  table_world ["/repo/.git"] ["/repo"] (Completed 0 "user.name=dev")
    [("/repo", status_argv, (128%Z, EmptyString))].

(** A root whose submodule [A] is a repository in which [git rev-parse]
    fails. *)
Definition world_broken_sub : World :=
  table_world
    ["/repo/.git"; "/repo/A/.git"]
    ["/repo"; "/repo/A"]
    (Completed 0 "user.name=dev")
    [("/repo", status_argv, (0%Z, listing_AB));
     ("/repo/A", revision_argv, (128%Z, EmptyString))].

(** A process in [/], itself a checkout at [fff0000], and no directory
    [/missing] to enter. *)
Definition world_lost : World :=
  table_world [] [] (Completed 0 EmptyString)
    [("/", revision_argv, (0%Z, lines ["fff0000"]))].

(* ================================================================= *)
(** * Theorems *)

Unset Implicit Arguments.

(** ** Strings *)

Lemma append_assoc (a b c : string) : (a ++ b) ++ c = a ++ (b ++ c).
Proof.
  induction a as [|x a IH]; simpl; [reflexivity | now rewrite IH].
Qed.

Lemma append_nil_r (a : string) : a ++ "" = a.
Proof.
  induction a as [|x a IH]; simpl; [reflexivity | now rewrite IH].
Qed.

Lemma contains_app (c : ascii) (a b : string) :
  contains c (a ++ b) = contains c a || contains c b.
Proof.
  induction a as [|x a IH]; simpl; [reflexivity|].
  now rewrite IH, orb_assoc.
Qed.

Lemma contains_replace_squote (s : string) :
  contains Ch.nul (replace_squote s) = contains Ch.nul s.
Proof.
  induction s as [|x s IH]; simpl; [reflexivity|].
  destruct (Ascii.eqb x Ch.squote) eqn:E.
  - apply Ascii.eqb_eq in E; subst x. simpl. exact IH.
  - simpl. now rewrite IH.
Qed.

Lemma contains_nul_quote (s : string) :
  contains Ch.nul (quote s) = contains Ch.nul s.
Proof.
  unfold quote. destruct s as [|x s]; [reflexivity|].
  destruct (all_safe (String x s)); [reflexivity|].
  change (contains Ch.nul (String Ch.squote (replace_squote (String x s) ++ "'")))
    with (contains Ch.nul (replace_squote (String x s) ++ "'")).
  rewrite contains_app, contains_replace_squote. simpl. now rewrite !orb_false_r.
Qed.

(** ** Shell quoting *)

Module ShFacts.
Import Sh.

(** A character that [pipes.quote] leaves bare is an ordinary character of
    a shell word. *)
Lemma safe_is_plain (c : ascii) :
  quote_safe c = true ->
  (Ascii.eqb c Ch.space || Ascii.eqb c Ch.tab) = false
  /\ Ascii.eqb c ";" = false /\ Ascii.eqb c Ch.lf = false
  /\ Ascii.eqb c Ch.squote = false /\ Ascii.eqb c Ch.dquote = false
  /\ special c = false.
Proof.
  destruct c as [[] [] [] [] [] [] [] []]; vm_compute; intuition congruence.
Qed.

Lemma lex_plain_char c m cur args cmds s :
  quote_safe c = true ->
  m = Unquoted ->
  lex_from m cur args cmds (String c s)
  = lex_from Unquoted (extend cur c) args cmds s.
Proof.
  intros Hc ->. destruct (safe_is_plain c Hc) as (H1 & H2 & H3 & H4 & H5 & H6).
  simpl. now rewrite H1, H2, H3, H4, H5, H6.
Qed.

Lemma lex_safe_word s : forall w args cmds rest,
  all_safe s = true ->
  lex_from Unquoted (Some w) args cmds (s ++ rest)
  = lex_from Unquoted (Some (w ++ s)) args cmds rest.
Proof.
  induction s as [|c s IH]; intros w args cmds rest Hs.
  - now rewrite append_nil_r.
  - simpl in Hs. apply andb_true_iff in Hs as [Hc Hs].
    change (String c s ++ rest) with (String c (s ++ rest)).
    rewrite lex_plain_char by auto. simpl extend.
    rewrite IH by assumption. now rewrite append_assoc.
Qed.

Lemma lex_safe_word_start c s args cmds rest :
  all_safe (String c s) = true ->
  lex_from Unquoted None args cmds (String c s ++ rest)
  = lex_from Unquoted (Some (String c s)) args cmds rest.
Proof.
  intros Hs. simpl in Hs. apply andb_true_iff in Hs as [Hc Hs].
  change (String c s ++ rest) with (String c (s ++ rest)).
  rewrite lex_plain_char by auto. simpl extend.
  now rewrite lex_safe_word.
Qed.

(** Inside single quotes the text produced by [replace_squote] reads back
    as the text it was made from. *)
Lemma lex_single_quoted s : forall w args cmds rest,
  lex_from InSingle (Some w) args cmds
    (replace_squote s ++ String Ch.squote rest)
  = lex_from Unquoted (Some (w ++ s)) args cmds rest.
Proof.
  induction s as [|c s IH]; intros w args cmds rest.
  - simpl. now rewrite append_nil_r.
  - simpl replace_squote. destruct (Ascii.eqb c Ch.squote) eqn:E.
    + apply Ascii.eqb_eq in E; subst c.
      cbn -[replace_squote lex_from append].
      change (lex_from InSingle (Some w) args cmds
                (String Ch.squote (String Ch.dquote (String Ch.squote
                  (String Ch.dquote (String Ch.squote
                    (replace_squote s ++ String Ch.squote rest))))))
              = lex_from Unquoted (Some (w ++ String Ch.squote s)) args cmds rest).
      cbn [lex_from]. cbn. rewrite IH. rewrite append_assoc. reflexivity.
    + change (String c (replace_squote s) ++ String Ch.squote rest)
        with (String c (replace_squote s ++ String Ch.squote rest)).
      cbn [lex_from]. rewrite E. simpl extend. rewrite IH.
      now rewrite append_assoc.
Qed.

Lemma close_cmd_app pre args cmds :
  close_cmd args (pre ++ cmds)%list = (pre ++ close_cmd args cmds)%list.
Proof.
  destruct args; simpl; [reflexivity | now rewrite app_assoc].
Qed.

(** Commands already read do not influence how the rest of a line is read. *)
Lemma lex_from_prefix pre s : forall m cur args cmds,
  lex_from m cur args (pre ++ cmds)%list s
  = option_map (app pre) (lex_from m cur args cmds s).
Proof.
  induction s as [|c s IH]; intros m cur args cmds.
  - destruct m; simpl; try reflexivity. now rewrite close_cmd_app.
  - destruct m; cbn [lex_from].
    + destruct (Ascii.eqb c Ch.space || Ascii.eqb c Ch.tab); [apply IH|].
      destruct (Ascii.eqb c ";").
      { destruct (close_word cur args); [reflexivity|].
        rewrite <- app_assoc. apply IH. }
      destruct (Ascii.eqb c Ch.lf).
      { rewrite close_cmd_app. apply IH. }
      destruct (Ascii.eqb c Ch.squote); [apply IH|].
      destruct (Ascii.eqb c Ch.dquote); [apply IH|].
      destruct (special c); [reflexivity | apply IH].
    + destruct (Ascii.eqb c Ch.squote); apply IH.
    + destruct (Ascii.eqb c Ch.dquote); [apply IH|].
      destruct (contains c "$`\"); [reflexivity | apply IH].
Qed.

(** The word that [pipes.quote] writes reads back as the string quoted,
    whatever follows the [;] that ends the command. *)
Lemma lex_quoted_operand (dir rest : string) args cmds :
  lex_from Unquoted None args cmds (quote dir ++ String ";" rest)
  = lex_from Unquoted None [] (cmds ++ [args ++ [dir]])%list rest.
Proof.
  unfold quote. destruct dir as [|c s].
  - cbn. destruct args; reflexivity.
  - destruct (all_safe (String c s)) eqn:Hs.
    + rewrite lex_safe_word_start by assumption.
      cbn. destruct args; reflexivity.
    + change (String Ch.squote (replace_squote (String c s) ++ "'")
              ++ String ";" rest)
        with (String Ch.squote ((replace_squote (String c s) ++ "'")
              ++ String ";" rest)).
      rewrite append_assoc.
      change ("'" ++ String ";" rest)
        with (String Ch.squote (String ";" rest)).
      cbn [lex_from]. cbn [Ascii.eqb Ch.squote Ch.space Ch.tab Ch.lf Ch.dquote].
      cbn -[replace_squote lex_from append].
      change (lex_from InSingle (Some "") args cmds
                (replace_squote (String c s)
                 ++ String Ch.squote (String ";" rest))
              = lex_from Unquoted None [] (cmds ++ [args ++ [String c s]])%list
                  rest).
      rewrite lex_single_quoted.
      cbn. destruct args; reflexivity.
Qed.

(** The line built by [run_in_dir] is the command [cd] with the operand
    [dir], followed by what [command] is on its own. *)
Lemma lex_cd_line (dir command : string) :
  lex (cd_line dir command)
  = option_map (cons ["cd"; dir]) (lex command).
Proof.
  unfold lex, cd_line.
  change ("cd " ++ quote dir ++ "; " ++ command)
    with (String "c" (String "d" (String " "
            (quote dir ++ String ";" (String " " command))))).
  cbn [lex_from]. cbn -[lex_from quote append].
  change (lex_from Unquoted None ["cd"] []
            (quote dir ++ String ";" (String " " command))
          = option_map (cons ["cd"; dir]) (lex_from Unquoted None [] [] command)).
  rewrite lex_quoted_operand.
  cbn [lex_from]. cbn -[lex_from].
  apply (lex_from_prefix [["cd"; dir]] command Unquoted None [] []).
Qed.

End ShFacts.

(** ** Computations *)

Lemma result_bind_ret {A B} (m : M A) (k : A -> M B) a :
  result m = Ret a ->
  result (bind m k) = result (k a)
  /\ trace (bind m k) = (trace m ++ trace (k a))%list.
Proof.
  destruct m as [o t]; simpl; intros ->.
  unfold bind. destruct (k a); auto.
Qed.

Lemma bind_throw {A B} (m : M A) (k : A -> M B) e :
  result m = Throw e -> bind m k = (Throw e, trace m).
Proof.
  destruct m as [o t]; simpl; intros ->. reflexivity.
Qed.

Lemma bind_emit {B} (e : effect) (k : unit -> M B) :
  bind (emit e) k = (result (k tt), e :: trace (k tt)).
Proof.
  unfold bind, emit. destruct (k tt); reflexivity.
Qed.

Lemma bind_ret {A B} (a : A) (k : A -> M B) : bind (ret a) k = k a.
Proof.
  unfold bind, ret. destruct (k a); reflexivity.
Qed.

Lemma M_eta {A} (m : M A) : m = (result m, trace m).
Proof. destruct m; reflexivity. Qed.

Lemma stderr_of_app (t1 t2 : list effect) :
  stderr_of (t1 ++ t2) = stderr_of t1 ++ stderr_of t2.
Proof.
  induction t1 as [|e t1 IH]; simpl; [reflexivity|].
  destruct e; try exact IH.
  rewrite IH, append_assoc. reflexivity.
Qed.

(** ** Running [git] through the shell *)

Lemma sh_steps_silent w prog : forall cwd status out,
  stderr_of (snd (sh_steps w cwd prog status out)) = "".
Proof.
  induction prog as [|argv prog IH]; intros cwd status out; simpl.
  - reflexivity.
  - destruct argv as [|name operands]; [apply IH|].
    destruct (String.eqb name "cd").
    + destruct (sh_cd w cwd operands) as [[st o] cwd'].
      specialize (IH cwd' st (out ++ o)).
      destruct (sh_steps w cwd' prog st (out ++ o)); simpl in *. exact IH.
    + destruct (sh_exec w cwd (name :: operands)) as [st o].
      specialize (IH cwd st (out ++ o)).
      destruct (sh_steps w cwd prog st (out ++ o)); simpl in *. exact IH.
Qed.

Lemma sh_run_silent w line : stderr_of (snd (sh_run w line)) = "".
Proof.
  unfold sh_run. destruct (Sh.lex line) as [prog|]; [|reflexivity].
  destruct (Sh.in_fragment prog); [apply sh_steps_silent | reflexivity].
Qed.

(** The shell prints nothing on the stderr of the checker's own trace. *)
Lemma run_in_dir_silent w dir command :
  stderr_of (trace (run_in_dir w dir command)) = "".
Proof.
  unfold run_in_dir, check_output_shell.
  destruct (contains Ch.nul (cd_line dir command)); [reflexivity|].
  pose proof (sh_run_silent w (cd_line dir command)) as H.
  destruct (sh_run w (cd_line dir command)) as [[rc out] t]; simpl in H.
  destruct (rc =? 0)%Z; exact H.
Qed.

Lemma contains_nul_cd_line dir command :
  contains Ch.nul (cd_line dir command)
  = contains Ch.nul dir || contains Ch.nul command.
Proof.
  unfold cd_line. rewrite !contains_app, contains_nul_quote. reflexivity.
Qed.

(** A [git] command run through [run_in_dir]. *)
Lemma run_in_dir_git w dir command args :
  contains Ch.nul command = false ->
  Sh.lex command = Some [("git" :: args)] ->
  run_in_dir w dir command = run_git_in w dir ("git" :: args).
Proof.
  intros Hnul Hlex.
  unfold run_in_dir, check_output_shell, run_git_in.
  rewrite contains_nul_cd_line, Hnul, orb_false_r.
  destruct (contains Ch.nul dir); [reflexivity|].
  unfold sh_run. rewrite ShFacts.lex_cd_line, Hlex.
  cbn -[sh_cd sh_exec proc_cwd Z.eqb].
  destruct (sh_cd w (proc_cwd w) [dir]) as [[st o] d].
  cbn -[sh_cd sh_exec proc_cwd Z.eqb].
  destruct (sh_exec w d ("git" :: args)) as [rc o'].
  cbn -[sh_cd sh_exec proc_cwd Z.eqb].
  destruct (rc =? 0)%Z; reflexivity.
Qed.

Lemma run_status w dir :
  run_in_dir w dir "git submodule status" = run_git_in w dir status_argv.
Proof. now apply run_in_dir_git. Qed.

Lemma run_revision w dir :
  run_in_dir w dir "git rev-parse HEAD" = run_git_in w dir revision_argv.
Proof. now apply run_in_dir_git. Qed.

Lemma run_dirty w dir :
  run_in_dir w dir "git status -uno --porcelain"
  = run_git_in w dir dirty_argv.
Proof. now apply run_in_dir_git. Qed.

Lemma run_extra w dir :
  run_in_dir w dir "git clean --dry-run -d" = run_git_in w dir extra_argv.
Proof. now apply run_in_dir_git. Qed.


(** ** Every effect is a query *)

Lemma all_read_only_bind {A B} (m : M A) (k : A -> M B) :
  forallb read_only (trace m) = true ->
  (forall a, forallb read_only (trace (k a)) = true) ->
  forallb read_only (trace (bind m k)) = true.
Proof.
  destruct m as [[a|e] t]; simpl; intros Ht Hk; [|exact Ht].
  specialize (Hk a). unfold bind. destruct (k a) as [o t']; simpl in *.
  rewrite forallb_app, Ht, Hk. reflexivity.
Qed.

Lemma run_git_in_read_only w dir argv :
  existsb (argv_eqb argv) git_queries = true ->
  forallb read_only (trace (run_git_in w dir argv)) = true.
Proof.
  intros Hq. unfold run_git_in.
  destruct (contains Ch.nul dir); [reflexivity|].
  destruct (sh_cd w (proc_cwd w) [dir]) as [[st o] d].
  destruct (sh_exec w d argv) as [rc o'].
  cbn [trace snd forallb read_only]. rewrite Hq. reflexivity.
Qed.

Lemma is_git_repo_read_only w dir :
  forallb read_only (trace (is_git_repo w dir)) = true.
Proof. reflexivity. Qed.

Lemma have_git_read_only w :
  forallb read_only (trace (have_git w)) = true.
Proof.
  unfold have_git, check_output.
  cbn -[spawn]. destruct (spawn w ["git"; "config"; "-l"]) as [|rc out].
  - reflexivity.
  - destruct (rc =? 0)%Z; reflexivity.
Qed.

Lemma git_revision_read_only w dir :
  forallb read_only (trace (git_revision w dir)) = true.
Proof.
  unfold git_revision. apply all_read_only_bind; [|reflexivity].
  rewrite run_revision. now apply run_git_in_read_only.
Qed.

Lemma is_dirty_read_only w dir :
  forallb read_only (trace (is_dirty w dir)) = true.
Proof.
  unfold is_dirty. apply all_read_only_bind; [|reflexivity].
  rewrite run_dirty. now apply run_git_in_read_only.
Qed.

Lemma has_extra_files_read_only w dir :
  forallb read_only (trace (has_extra_files w dir)) = true.
Proof.
  unfold has_extra_files. apply all_read_only_bind; [|reflexivity].
  rewrite run_extra. now apply run_git_in_read_only.
Qed.

Lemma check_submodule_read_only w datadir r :
  forallb read_only (trace (check_submodule w datadir r)) = true.
Proof.
  destruct r as [[status revision] name]. unfold check_submodule.
  apply all_read_only_bind; [apply is_git_repo_read_only|].
  intros [|]; cbn [negb]; [|reflexivity].
  apply all_read_only_bind; [apply git_revision_read_only|].
  intros head. destruct (negb (revision =? head)%string); [reflexivity|].
  apply all_read_only_bind; [apply is_dirty_read_only|].
  intros [|]; [reflexivity|].
  apply all_read_only_bind; [apply has_extra_files_read_only|].
  intros [|]; reflexivity.
Qed.

Lemma for_each_read_only {A} (g : gen A) (body : A -> M unit) :
  (forall a, forallb read_only (trace (body a)) = true) ->
  forallb read_only (trace (for_each g body)) = true.
Proof.
  intros Hb. induction g as [|a g IH|e]; simpl; try reflexivity.
  apply all_read_only_bind; auto.
Qed.

(** C8.  The checker only reads.  In every run of
    [verify_git_integrity_or_abort], each interaction with the outside is a
    file probe, a line on stderr, a change of directory of the shell, or
    one of the five queries: [git config -l], [git submodule status],
    [git rev-parse HEAD], [git status -uno --porcelain] and
    [git clean --dry-run -d]; no command of another kind is ever issued. *)
Theorem verify_is_read_only (w : World) (datadir : string) :
  forallb read_only (trace (verify_git_integrity_or_abort w datadir)) = true.
Proof.
  unfold verify_git_integrity_or_abort.
  apply all_read_only_bind; [apply is_git_repo_read_only|].
  intros [|]; cbn [negb]; [|reflexivity].
  apply all_read_only_bind; [apply have_git_read_only|].
  intros [|]; cbn [negb]; [|reflexivity].
  apply all_read_only_bind.
  - unfold get_submodules. apply all_read_only_bind; [|reflexivity].
    rewrite run_status. now apply run_git_in_read_only.
  - intros g. apply for_each_read_only. apply check_submodule_read_only.
Qed.

(** ** The loop over the listing *)

Lemma check_all_cons w datadir line rest r :
  submodule_of_line w line = Ret r ->
  check_all w datadir (line :: rest)
  = (check_submodule w datadir r ;;; check_all w datadir rest).
Proof.
  intros H. unfold check_all. simpl. rewrite H. reflexivity.
Qed.

(** Lines whose checks complete are passed, and the loop goes on with the
    lines that follow them. *)
Lemma check_all_completes w datadir pre : forall rest,
  Forall (completes w datadir) pre ->
  result (check_all w datadir (pre ++ rest))
  = result (check_all w datadir rest)
  /\ trace (check_all w datadir (pre ++ rest))
     = (trace (check_all w datadir pre)
        ++ trace (check_all w datadir rest))%list.
Proof.
  induction pre as [|line pre IH]; intros rest Hpre.
  - split; reflexivity.
  - inversion Hpre as [|? ? (r & Hline & Hr) Hpre']; subst.
    destruct (IH rest Hpre') as [IHr IHt].
    change ((line :: pre) ++ rest)%list with (line :: (pre ++ rest))%list.
    rewrite !(check_all_cons w datadir line _ r Hline).
    destruct (result_bind_ret (check_submodule w datadir r)
                (fun _ => check_all w datadir (pre ++ rest)) tt Hr) as [R1 T1].
    destruct (result_bind_ret (check_submodule w datadir r)
                (fun _ => check_all w datadir pre) tt Hr) as [R2 T2].
    rewrite R1, T1, T2, IHr, IHt, app_assoc. split; reflexivity.
Qed.

Lemma check_all_completes_result w datadir pre :
  Forall (completes w datadir) pre ->
  result (check_all w datadir pre) = Ret tt.
Proof.
  intros H. destruct (check_all_completes w datadir pre [] H) as [R _].
  rewrite app_nil_r in R. exact R.
Qed.

Lemma is_git_repo_eq w dir :
  is_git_repo w dir
  = (Ret (path_exists w (os_path_join dir ".git")),
     [Exists (os_path_join dir ".git")]).
Proof. reflexivity. Qed.

(** The run up to the loop. *)
Lemma verify_listing w datadir output :
  path_exists w (os_path_join datadir ".git") = true ->
  result (have_git w) = Ret true ->
  result (run_in_dir w datadir "git submodule status") = Ret output ->
  result (verify_git_integrity_or_abort w datadir)
  = result (check_all w datadir (splitlines output))
  /\ trace (verify_git_integrity_or_abort w datadir)
     = (prelude_trace w datadir
        ++ trace (check_all w datadir (splitlines output)))%list.
Proof.
  intros Hroot Hgit Hout.
  unfold verify_git_integrity_or_abort, prelude_trace.
  assert (Hrepo : result (is_git_repo w datadir) = Ret true)
    by (rewrite is_git_repo_eq; cbn [result fst]; now rewrite Hroot).
  destruct (result_bind_ret (is_git_repo w datadir)
    (fun repo => if negb repo then ret tt
                 else git <- have_git w;;
                      if negb git then warn_no_git_executable
                      else subs <- get_submodules w datadir;;
                           for_each subs (check_submodule w datadir)) true Hrepo)
    as [R0 T0].
  rewrite R0, T0. cbn [negb].
  change (trace (is_git_repo w datadir))
    with [Exists (os_path_join datadir ".git")].
  destruct (result_bind_ret (have_git w)
    (fun git => if negb git then warn_no_git_executable
                else subs <- get_submodules w datadir;;
                     for_each subs (check_submodule w datadir)) true Hgit)
    as [R1 T1].
  rewrite R1, T1. cbn [negb].
  assert (Hsubs : result (get_submodules w datadir)
                  = Ret (submodules_of_lines w (splitlines output))
                  /\ trace (get_submodules w datadir)
                     = trace (run_in_dir w datadir "git submodule status")).
  { unfold get_submodules.
    destruct (result_bind_ret (run_in_dir w datadir "git submodule status")
      (fun out => ret (submodules_of_lines w (splitlines out))) output Hout)
      as [R T].
    rewrite R, T. simpl. now rewrite app_nil_r. }
  destruct Hsubs as [Rs Ts].
  destruct (result_bind_ret (get_submodules w datadir)
    (fun subs => for_each subs (check_submodule w datadir)) _ Rs) as [R2 T2].
  rewrite R2, T2, Ts. split; [reflexivity|].
  unfold check_all. cbn [app]. now rewrite app_assoc.
Qed.

Lemma have_git_silent w : stderr_of (trace (have_git w)) = "".
Proof.
  unfold have_git, check_output.
  cbn -[spawn]. destruct (spawn w ["git"; "config"; "-l"]) as [|rc out].
  - reflexivity.
  - destruct (rc =? 0)%Z; reflexivity.
Qed.

Lemma prelude_silent w datadir : stderr_of (prelude_trace w datadir) = "".
Proof.
  unfold prelude_trace. cbn [stderr_of].
  now rewrite stderr_of_app, have_git_silent, run_in_dir_silent.
Qed.

Lemma git_revision_silent w dir :
  stderr_of (trace (git_revision w dir)) = "".
Proof.
  unfold git_revision.
  pose proof (run_in_dir_silent w dir "git rev-parse HEAD") as H.
  destruct (run_in_dir w dir "git rev-parse HEAD") as [[out|e] t];
    simpl in *; [|exact H].
  now rewrite app_nil_r.
Qed.

Lemma is_dirty_silent w dir : stderr_of (trace (is_dirty w dir)) = "".
Proof.
  unfold is_dirty.
  pose proof (run_in_dir_silent w dir "git status -uno --porcelain") as H.
  destruct (run_in_dir w dir "git status -uno --porcelain") as [[out|e] t];
    simpl in *; [|exact H].
  now rewrite app_nil_r.
Qed.

Lemma has_extra_files_silent w dir :
  stderr_of (trace (has_extra_files w dir)) = "".
Proof.
  unfold has_extra_files.
  pose proof (run_in_dir_silent w dir "git clean --dry-run -d") as H.
  destruct (run_in_dir w dir "git clean --dry-run -d") as [[out|e] t];
    simpl in *; [|exact H].
  now rewrite app_nil_r.
Qed.

Lemma bind_pair_ret {A B} (a : A) (t : list effect) (k : A -> M B) :
  bind (Ret a, t) k = (result (k a), (t ++ trace (k a))%list).
Proof. unfold bind. destruct (k a); reflexivity. Qed.

Lemma eqb_neq_sym (a b : string) : a <> b -> (b =? a)%string = false.
Proof. intros H. apply String.eqb_neq. congruence. Qed.

(** ** One entry of the listing *)

(** A submodule that is not a repository, or is at another revision than
    the recorded one, ends the run with status 1 after the diagnostic. *)
Lemma check_submodule_fatal w datadir status revision name :
  fatal w datadir revision name ->
  result (check_submodule w datadir (status, revision, name))
  = Throw (SystemExit 1)
  /\ stderr_of (trace (check_submodule w datadir (status, revision, name)))
     = if has_repo w datadir name then not_updated_text name datadir
       else not_initialized_text name datadir.
Proof.
  unfold fatal, has_repo, check_submodule.
  rewrite is_git_repo_eq, bind_pair_ret.
  intros [Hno | (Hyes & head & Hhead & Hne)].
  - rewrite Hno. cbn [negb]. split; [reflexivity|].
    unfold not_initialized_text, newline. cbn.
    rewrite !append_assoc. reflexivity.
  - rewrite Hyes. cbn [negb].
    pose proof (git_revision_silent w (os_path_join datadir name)) as Hs.
    destruct (git_revision w (os_path_join datadir name)) as [[h|e] t];
      cbn [result trace fst snd] in *; [|discriminate].
    injection Hhead as ->. rewrite bind_pair_ret.
    rewrite (eqb_neq_sym _ _ Hne). cbn [negb]. split; [reflexivity|].
    cbn [trace snd app stderr_of]. rewrite stderr_of_app, Hs.
    unfold not_updated_text, newline. cbn.
    rewrite !append_assoc. reflexivity.
Qed.

(** C1.  When the listing is obtained and every entry before some entry is
    checked without leaving the loop, and that entry is fatal (its
    directory is not a repository, or its head is not the recorded
    revision), [verify_git_integrity_or_abort] ends the process with exit
    status 1; stderr ends with the diagnostic that names the submodule; and
    the run is the run on the listing cut after the fatal entry: nothing
    that follows it is parsed, probed or queried. *)
Theorem first_fatal_submodule_exits (w : World) (datadir output : string)
    (pre : list string) (line : string) (rest : list string)
    (status : ascii) (revision name : string) :
  path_exists w (os_path_join datadir ".git") = true ->
  result (have_git w) = Ret true ->
  result (run_in_dir w datadir "git submodule status") = Ret output ->
  splitlines output = (pre ++ line :: rest)%list ->
  Forall (completes w datadir) pre ->
  submodule_of_line w line = Ret (status, revision, name) ->
  fatal w datadir revision name ->
  result (verify_git_integrity_or_abort w datadir) = Throw (SystemExit 1)
  /\ stderr_of (trace (verify_git_integrity_or_abort w datadir))
     = stderr_of (trace (check_all w datadir pre))
       ++ (if has_repo w datadir name then not_updated_text name datadir
           else not_initialized_text name datadir)
  /\ trace (verify_git_integrity_or_abort w datadir)
     = (prelude_trace w datadir
        ++ trace (check_all w datadir (pre ++ [line])))%list
  /\ check_all w datadir (pre ++ line :: rest)
     = check_all w datadir (pre ++ [line]).
Proof.
  intros Hroot Hgit Hout Hlines Hpre Hline Hfatal.
  destruct (verify_listing w datadir output Hroot Hgit Hout) as [R T].
  rewrite Hlines in R, T.
  destruct (check_submodule_fatal w datadir status revision name Hfatal)
    as [Rf Sf].
  assert (Hcut : forall tail,
             check_all w datadir (line :: tail)
             = (Throw (SystemExit 1),
                trace (check_submodule w datadir (status, revision, name)))).
  { intros tail. rewrite (check_all_cons w datadir line tail _ Hline).
    now apply bind_throw. }
  assert (Hall : forall tail,
             check_all w datadir (pre ++ line :: tail)
             = (Throw (SystemExit 1),
                (trace (check_all w datadir pre)
                 ++ trace (check_submodule w datadir
                             (status, revision, name)))%list)).
  { intros tail.
    destruct (check_all_completes w datadir pre (line :: tail) Hpre)
      as [Rp Tp].
    rewrite (M_eta (check_all w datadir (pre ++ line :: tail))), Rp, Tp.
    now rewrite Hcut. }
  rewrite R, T, !Hall. cbn [result trace fst snd].
  repeat split.
  rewrite !stderr_of_app, prelude_silent, Sf. reflexivity.
Qed.

Lemma first_fatal_submodule_exits_witness :
  result (verify_git_integrity_or_abort world_AB "/repo")
  = Throw (SystemExit 1)
  /\ stderr_of (trace (verify_git_integrity_or_abort world_AB "/repo"))
     = not_updated_text "B" "/repo"
  /\ forallb (fun e => match e with
                       | Exists p => negb (String.eqb p "/repo/C/.git")
                       | _ => true
                       end)
       (trace (verify_git_integrity_or_abort world_AB "/repo")) = true.
Proof.
  destruct (first_fatal_submodule_exits world_AB "/repo"
              (lines ["+abc1234 A (heads/master)"; "+def5678 B";
                      "-0123456 C"])
              ["+abc1234 A (heads/master)"] "+def5678 B" ["-0123456 C"]
              "+"%char "def5678" "B")
    as (R & S & T & _).
  - reflexivity.
  - reflexivity.
  - reflexivity.
  - reflexivity.
  - repeat constructor. eexists. split; reflexivity.
  - reflexivity.
  - right. split; [reflexivity|].
    exists "000aaaa". split; [reflexivity | discriminate].
  - split; [exact R|]. split; [rewrite S; reflexivity|].
    rewrite T. reflexivity.
Defined.

Lemma printed_app (t1 t2 : list effect) :
  printed (t1 ++ t2) = (printed t1 ++ printed t2)%list.
Proof.
  induction t1 as [|e t1 IH]; simpl; [reflexivity|].
  destruct e; try exact IH. simpl. now rewrite IH.
Qed.

Lemma silent_printed (t : list effect) :
  stderr_of t = "" -> printed t = [].
Proof.
  induction t as [|e t IH]; simpl; [reflexivity|].
  destruct e; try exact IH.
  destruct text; discriminate.
Qed.

(** A submodule at its recorded revision with tracked changes: one
    warning, and the loop goes on. *)
Lemma check_submodule_dirty w datadir status revision name :
  has_repo w datadir name = true ->
  result (git_revision w (os_path_join datadir name)) = Ret revision ->
  result (is_dirty w (os_path_join datadir name)) = Ret true ->
  result (check_submodule w datadir (status, revision, name)) = Ret tt
  /\ printed (trace (check_submodule w datadir (status, revision, name)))
     = [dirty_warning name].
Proof.
  unfold has_repo, check_submodule. intros Hrepo Hrev Hdirty.
  rewrite is_git_repo_eq, bind_pair_ret, Hrepo. cbn [negb].
  pose proof (silent_printed _
    (git_revision_silent w (os_path_join datadir name))) as Hs1.
  pose proof (silent_printed _
    (is_dirty_silent w (os_path_join datadir name))) as Hs2.
  destruct (git_revision w (os_path_join datadir name)) as [[h|e] t1];
    cbn [result trace fst snd] in *; [|discriminate].
  injection Hrev as ->. rewrite bind_pair_ret, String.eqb_refl. cbn [negb].
  destruct (is_dirty w (os_path_join datadir name)) as [[b|e] t2];
    cbn [result trace fst snd] in *; [|discriminate].
  injection Hdirty as ->. rewrite bind_pair_ret.
  split; [reflexivity|].
  cbn [result trace fst snd app printed].
  rewrite !printed_app, Hs1, Hs2. reflexivity.
Qed.

(** C6.  A submodule whose head is the recorded revision and that has
    tracked modifications makes [verify_git_integrity_or_abort] print
    exactly one text, the warning that names it; its check returns, so the
    process is not ended there; and the run goes on with every entry after
    it: the outcome of the run is that of checking the rest of the listing,
    whose effects follow the warning. *)
Theorem dirty_submodule_warns_once (w : World) (datadir output : string)
    (pre : list string) (line : string) (rest : list string)
    (status : ascii) (revision name : string) :
  path_exists w (os_path_join datadir ".git") = true ->
  result (have_git w) = Ret true ->
  result (run_in_dir w datadir "git submodule status") = Ret output ->
  splitlines output = (pre ++ line :: rest)%list ->
  Forall (completes w datadir) pre ->
  submodule_of_line w line = Ret (status, revision, name) ->
  has_repo w datadir name = true ->
  result (git_revision w (os_path_join datadir name)) = Ret revision ->
  result (is_dirty w (os_path_join datadir name)) = Ret true ->
  result (check_submodule w datadir (status, revision, name)) = Ret tt
  /\ printed (trace (check_submodule w datadir (status, revision, name)))
     = [dirty_warning name]
  /\ result (verify_git_integrity_or_abort w datadir)
     = result (check_all w datadir rest)
  /\ trace (verify_git_integrity_or_abort w datadir)
     = (prelude_trace w datadir
        ++ trace (check_all w datadir pre)
        ++ trace (check_submodule w datadir (status, revision, name))
        ++ trace (check_all w datadir rest))%list
  /\ printed (trace (verify_git_integrity_or_abort w datadir))
     = (printed (trace (check_all w datadir pre))
        ++ [dirty_warning name]
        ++ printed (trace (check_all w datadir rest)))%list.
Proof.
  intros Hroot Hgit Hout Hlines Hpre Hline Hrepo Hrev Hdirty.
  destruct (check_submodule_dirty w datadir status revision name
              Hrepo Hrev Hdirty) as [Re Pe].
  destruct (verify_listing w datadir output Hroot Hgit Hout) as [R T].
  rewrite Hlines in R, T.
  destruct (check_all_completes w datadir pre (line :: rest) Hpre)
    as [Rp Tp].
  rewrite (check_all_cons w datadir line rest _ Hline) in Rp, Tp.
  destruct (result_bind_ret (check_submodule w datadir (status, revision, name))
              (fun _ => check_all w datadir rest) tt Re) as [Rb Tb].
  rewrite Rb in Rp. rewrite Tb in Tp.
  rewrite R, T, Rp, Tp.
  repeat split; try assumption.
  rewrite !printed_app, Pe.
  rewrite (silent_printed _ (prelude_silent w datadir)). reflexivity.
Qed.

Lemma dirty_submodule_warns_once_witness :
  verify_git_integrity_or_abort (world_dirty listing_AB) "/repo"
  = (Ret tt,
     prelude_trace (world_dirty listing_AB) "/repo"
     ++ [Exists "/repo/A/.git";
         ShCd "/" ["/repo/A"]; ShExec "/repo/A" revision_argv;
         ShCd "/" ["/repo/A"]; ShExec "/repo/A" dirty_argv;
         Print "Warning: git module 'A' has uncommitted changes.";
         Exists "/repo/B/.git";
         ShCd "/" ["/repo/B"]; ShExec "/repo/B" revision_argv;
         ShCd "/" ["/repo/B"]; ShExec "/repo/B" dirty_argv;
         ShCd "/" ["/repo/B"]; ShExec "/repo/B" extra_argv])%list.
Proof.
  destruct (dirty_submodule_warns_once (world_dirty listing_AB) "/repo"
              listing_AB [] " abc1234 A" [" def5678 B"]
              " "%char "abc1234" "A"
              eq_refl eq_refl eq_refl eq_refl (Forall_nil _)
              eq_refl eq_refl eq_refl eq_refl)
    as (_ & _ & R & T & _).
  rewrite (M_eta (verify_git_integrity_or_abort _ _)), R, T. reflexivity.
Defined.

(** ** A listing in order *)

Lemma check_submodule_clean w datadir line :
  clean w datadir line ->
  exists r, submodule_of_line w line = Ret r
            /\ result (check_submodule w datadir r) = Ret tt
            /\ stderr_of (trace (check_submodule w datadir r)) = "".
Proof.
  intros (status & revision & name & Hline & Hrepo & Hrev & Hdirty & Hextra).
  exists (status, revision, name). split; [exact Hline|].
  unfold has_repo in Hrepo. unfold check_submodule.
  rewrite is_git_repo_eq, bind_pair_ret, Hrepo. cbn [negb].
  pose proof (git_revision_silent w (os_path_join datadir name)) as Hs1.
  pose proof (is_dirty_silent w (os_path_join datadir name)) as Hs2.
  pose proof (has_extra_files_silent w (os_path_join datadir name)) as Hs3.
  destruct (git_revision w (os_path_join datadir name)) as [[h|e] t1];
    cbn [result trace fst snd] in *; [|discriminate].
  injection Hrev as ->. rewrite bind_pair_ret, String.eqb_refl. cbn [negb].
  destruct (is_dirty w (os_path_join datadir name)) as [[b|e] t2];
    cbn [result trace fst snd] in *; [|discriminate].
  injection Hdirty as ->. rewrite bind_pair_ret.
  destruct (has_extra_files w (os_path_join datadir name)) as [[b|e] t3];
    cbn [result trace fst snd] in *; [|discriminate].
  injection Hextra as ->. rewrite bind_pair_ret.
  split; [reflexivity|].
  cbn [result trace fst snd app stderr_of ret].
  rewrite !stderr_of_app, Hs1, Hs2, Hs3. reflexivity.
Qed.

Lemma check_all_clean w datadir listing :
  Forall (clean w datadir) listing ->
  result (check_all w datadir listing) = Ret tt
  /\ stderr_of (trace (check_all w datadir listing)) = "".
Proof.
  induction 1 as [|line listing Hline _ [IHr IHs]].
  - split; reflexivity.
  - destruct (check_submodule_clean w datadir line Hline)
      as (r & Hr & Rr & Sr).
    rewrite (check_all_cons w datadir line listing r Hr).
    destruct (result_bind_ret (check_submodule w datadir r)
                (fun _ => check_all w datadir listing) tt Rr) as [Rb Tb].
    rewrite Rb, Tb, stderr_of_app, Sr, IHs. split; [exact IHr | reflexivity].
Qed.

(** C7.  When the root is a repository, [git] runs, and every line of the
    listing is a submodule that is a repository at its recorded revision
    with no tracked change and no untracked file,
    [verify_git_integrity_or_abort] returns (the process is not ended) and
    nothing is written on stderr. *)
Theorem clean_checkout_is_silent (w : World) (datadir output : string) :
  path_exists w (os_path_join datadir ".git") = true ->
  result (have_git w) = Ret true ->
  result (run_in_dir w datadir "git submodule status") = Ret output ->
  Forall (clean w datadir) (splitlines output) ->
  result (verify_git_integrity_or_abort w datadir) = Ret tt
  /\ stderr_of (trace (verify_git_integrity_or_abort w datadir)) = ""
  /\ printed (trace (verify_git_integrity_or_abort w datadir)) = [].
Proof.
  intros Hroot Hgit Hout Hclean.
  destruct (verify_listing w datadir output Hroot Hgit Hout) as [R T].
  destruct (check_all_clean w datadir _ Hclean) as [Rc Sc].
  assert (S : stderr_of (trace (verify_git_integrity_or_abort w datadir)) = "")
    by (rewrite T, stderr_of_app, prelude_silent, Sc; reflexivity).
  split; [now rewrite R|]. split; [exact S | now apply silent_printed].
Qed.

Lemma clean_checkout_is_silent_witness :
  result (verify_git_integrity_or_abort world_clean "/repo") = Ret tt
  /\ stderr_of (trace (verify_git_integrity_or_abort world_clean "/repo")) = ""
  /\ printed (trace (verify_git_integrity_or_abort world_clean "/repo")) = [].
Proof.
  apply (clean_checkout_is_silent world_clean "/repo" listing_AB);
    try reflexivity.
  repeat constructor.
  - exists " "%char, "abc1234", "A". repeat split.
  - exists " "%char, "def5678", "B". repeat split.
Defined.

(** ** Lines that do not parse *)

Lemma split_no_sep (sep : ascii) (s : string) :
  contains sep s = false -> split sep s = [s].
Proof.
  induction s as [|c s IH]; simpl; [reflexivity|].
  intros H. apply orb_false_iff in H as [Hc Hs].
  rewrite Hc, (IH Hs). reflexivity.
Qed.

Lemma submodule_of_line_no_space w marker fields :
  contains " " fields = false ->
  submodule_of_line w (String marker fields) = Throw ValueError_unpack.
Proof.
  intros H. unfold submodule_of_line. now rewrite (split_no_sep _ _ H).
Qed.

Lemma drain_parsed w pre : forall tail,
  Forall (parses w) pre ->
  snd (drain (submodules_of_lines w (pre ++ tail)))
  = snd (drain (submodules_of_lines w tail))
  /\ length (fst (drain (submodules_of_lines w (pre ++ tail))))
     = length pre + length (fst (drain (submodules_of_lines w tail))).
Proof.
  induction pre as [|line pre IH]; intros tail Hpre.
  - split; reflexivity.
  - inversion Hpre as [|? ? [r Hr] Hpre']; subst.
    destruct (IH tail Hpre') as [IHe IHn].
    cbn [app submodules_of_lines]. rewrite Hr. cbn [drain].
    destruct (drain (submodules_of_lines w (pre ++ tail))) as [l e].
    cbn [fst snd length] in *. now rewrite IHe, IHn.
Qed.

(** C10.  A line of the listing with no space after its first byte cannot
    be unpacked into a hash and a name: [get_submodules] raises the
    unpacking [ValueError] when it reaches the line, after yielding the
    records of the lines before it, and [verify_git_integrity_or_abort]
    ends with that exception and no diagnostic of its own.  With an empty
    listing [get_submodules] yields no record and the check returns with
    nothing on stderr. *)
Theorem malformed_line_raises (w : World) (datadir output : string) :
  path_exists w (os_path_join datadir ".git") = true ->
  result (have_git w) = Ret true ->
  result (run_in_dir w datadir "git submodule status") = Ret output ->
  (forall (pre : list string) (marker : ascii) (fields : string)
          (rest : list string),
      contains " " fields = false ->
      splitlines output = (pre ++ String marker fields :: rest)%list ->
      submodule_of_line w (String marker fields) = Throw ValueError_unpack
      /\ (Forall (parses w) pre ->
          snd (drain (submodules_of_lines w (splitlines output)))
          = Some ValueError_unpack
          /\ length (fst (drain (submodules_of_lines w (splitlines output))))
             = length pre)
      /\ (Forall (completes w datadir) pre ->
          result (verify_git_integrity_or_abort w datadir)
          = Throw ValueError_unpack
          /\ printed (trace (verify_git_integrity_or_abort w datadir))
             = printed (trace (check_all w datadir pre))))
  /\ (output = "" ->
      result (get_submodules w datadir) = Ret GStop
      /\ result (verify_git_integrity_or_abort w datadir) = Ret tt
      /\ printed (trace (verify_git_integrity_or_abort w datadir)) = []).
Proof.
  intros Hroot Hgit Hout.
  destruct (verify_listing w datadir output Hroot Hgit Hout) as [R T].
  split.
  - intros pre marker fields rest Hfields Hlines.
    pose proof (submodule_of_line_no_space w marker fields Hfields) as Hbad.
    split; [exact Hbad|]. split.
    + intros Hpre. rewrite Hlines.
      destruct (drain_parsed w pre (String marker fields :: rest) Hpre)
        as [He Hn].
      rewrite He, Hn. cbn [submodules_of_lines]. rewrite Hbad.
      cbn. split; [reflexivity | lia].
    + intros Hpre. rewrite R, T, Hlines.
      destruct (check_all_completes w datadir pre
                  (String marker fields :: rest) Hpre) as [Rp Tp].
      rewrite Rp, Tp.
      assert (Hhere : check_all w datadir (String marker fields :: rest)
                      = (Throw ValueError_unpack, [])).
      { unfold check_all. cbn [submodules_of_lines]. now rewrite Hbad. }
      rewrite Hhere. cbn [result trace fst snd].
      split; [reflexivity|].
      rewrite !printed_app, app_nil_r.
      now rewrite (silent_printed _ (prelude_silent w datadir)).
  - intros ->. cbn [splitlines] in R, T.
    split.
    + unfold get_submodules.
      destruct (result_bind_ret (run_in_dir w datadir "git submodule status")
        (fun out => ret (submodules_of_lines w (splitlines out))) "" Hout)
        as [Rg _].
      rewrite Rg. reflexivity.
    + rewrite R, T. split; [reflexivity|].
      rewrite printed_app, app_nil_r.
      apply silent_printed, prelude_silent.
Qed.

Lemma malformed_line_raises_witness :
  (result (verify_git_integrity_or_abort
             (world_dirty (lines ["+abc1234"])) "/repo")
   = Throw ValueError_unpack
   /\ printed (trace (verify_git_integrity_or_abort
                        (world_dirty (lines ["+abc1234"])) "/repo")) = [])
  /\ (result (verify_git_integrity_or_abort (world_dirty "") "/repo") = Ret tt
      /\ printed (trace (verify_git_integrity_or_abort
                           (world_dirty "") "/repo")) = []).
Proof.
  split.
  - destruct (malformed_line_raises (world_dirty (lines ["+abc1234"]))
                "/repo" (lines ["+abc1234"]) eq_refl eq_refl eq_refl)
      as [Hbad _].
    destruct (Hbad [] "+"%char "abc1234" [] eq_refl eq_refl)
      as (_ & _ & Hrun).
    exact (Hrun (Forall_nil _)).
  - destruct (malformed_line_raises (world_dirty "") "/repo" ""
                eq_refl eq_refl eq_refl) as [_ Hempty].
    destruct (Hempty eq_refl) as (_ & R & P). split; assumption.
Defined.

(** ** The status marker *)

Lemma run_git_in_with w f dir argv :
  argv_eqb argv status_argv = false ->
  run_git_in (with_submodule_status w f) dir argv = run_git_in w dir argv.
Proof.
  intros H. unfold run_git_in. cbn [with_submodule_status proc_cwd sh_cd sh_exec].
  rewrite H. reflexivity.
Qed.

Lemma git_revision_with w f dir :
  git_revision (with_submodule_status w f) dir = git_revision w dir.
Proof.
  unfold git_revision. rewrite !run_revision.
  now rewrite run_git_in_with.
Qed.

Lemma is_dirty_with w f dir :
  is_dirty (with_submodule_status w f) dir = is_dirty w dir.
Proof.
  unfold is_dirty. rewrite !run_dirty. now rewrite run_git_in_with.
Qed.

Lemma has_extra_files_with w f dir :
  has_extra_files (with_submodule_status w f) dir = has_extra_files w dir.
Proof.
  unfold has_extra_files. rewrite !run_extra. now rewrite run_git_in_with.
Qed.

(** What [git submodule status] says plays no part in the check of one
    submodule, and neither does the marker of its record. *)
Lemma check_submodule_with w f datadir status status' revision name :
  check_submodule (with_submodule_status w f) datadir
    (status, revision, name)
  = check_submodule w datadir (status', revision, name).
Proof.
  unfold check_submodule.
  rewrite !is_git_repo_eq, !bind_pair_ret.
  cbn [with_submodule_status path_exists].
  destruct (path_exists w (os_path_join (os_path_join datadir name) ".git"));
    cbn [negb]; [|reflexivity].
  rewrite git_revision_with.
  destruct (git_revision w (os_path_join datadir name)) as [[head|e] t1];
    [|reflexivity].
  rewrite !bind_pair_ret.
  destruct (negb (revision =? head)%string); [reflexivity|].
  rewrite is_dirty_with.
  destruct (is_dirty w (os_path_join datadir name)) as [[dirty|e] t2];
    [|reflexivity].
  rewrite !bind_pair_ret. destruct dirty; [reflexivity|].
  rewrite has_extra_files_with. reflexivity.
Qed.

Lemma check_all_markers w f1 f2 datadir l1 l2 :
  Forall2 same_but_marker l1 l2 ->
  check_all (with_submodule_status w f1) datadir l1
  = check_all (with_submodule_status w f2) datadir l2.
Proof.
  induction 1 as [|a b l1 l2 Hab _ IH]; [reflexivity|].
  destruct a as [|c1 t1], b as [|c2 t2]; try contradiction.
  simpl in Hab; subst t2.
  unfold check_all in *. cbn [submodules_of_lines].
  unfold submodule_of_line. cbn [with_submodule_status fs_decodable].
  destruct (split " " t1) as [|sha5 [|name fields]]; try reflexivity.
  destruct (fs_decodable w name); [|reflexivity].
  cbn [for_each]. rewrite IH.
  rewrite (check_submodule_with w f1 datadir c1 c1 sha5 name).
  rewrite (check_submodule_with w f2 datadir c2 c1 sha5 name).
  reflexivity.
Qed.

Lemma loop_of_listing w datadir :
  (subs <- get_submodules w datadir ;;
   for_each subs (check_submodule w datadir))
  = (out <- run_in_dir w datadir "git submodule status" ;;
     check_all w datadir (splitlines out)).
Proof.
  unfold get_submodules, check_all.
  destruct (run_in_dir w datadir "git submodule status") as [[out|e] t];
    [|reflexivity].
  rewrite !bind_pair_ret. cbn [ret result trace fst snd].
  rewrite bind_pair_ret, app_nil_r. reflexivity.
Qed.

Lemma status_trace_with w f datadir :
  trace (run_in_dir (with_submodule_status w f) datadir
           "git submodule status")
  = trace (run_in_dir w datadir "git submodule status").
Proof.
  rewrite !run_status. unfold run_git_in.
  cbn [with_submodule_status proc_cwd sh_cd sh_exec].
  destruct (contains Ch.nul datadir); [reflexivity|].
  destruct (sh_cd w (proc_cwd w) [datadir]) as [[st o] d].
  destruct (if argv_eqb status_argv status_argv then f d
            else sh_exec w d status_argv) as [rc1 o1].
  destruct (sh_exec w d status_argv) as [rc2 o2]. reflexivity.
Qed.

(** C9.  The status marker decides nothing.  Take two worlds that differ
    only in what [git submodule status] answers, and suppose the two
    listings differ at most in the first byte of each line (or the command
    fails the same way in both).  Then the two runs of
    [verify_git_integrity_or_abort] have the same outcome (return, exit
    status or exception), the same stderr and the same sequence of probes
    and commands. *)
Theorem status_marker_is_ignored (w : World) (f1 f2 : string -> Z * string)
    (datadir : string) :
  same_but_markers
    (result (run_in_dir (with_submodule_status w f1) datadir
               "git submodule status"))
    (result (run_in_dir (with_submodule_status w f2) datadir
               "git submodule status")) ->
  result (verify_git_integrity_or_abort (with_submodule_status w f1) datadir)
  = result (verify_git_integrity_or_abort (with_submodule_status w f2) datadir)
  /\ stderr_of
       (trace (verify_git_integrity_or_abort
                 (with_submodule_status w f1) datadir))
     = stderr_of
         (trace (verify_git_integrity_or_abort
                   (with_submodule_status w f2) datadir))
  /\ trace (verify_git_integrity_or_abort (with_submodule_status w f1) datadir)
     = trace (verify_git_integrity_or_abort
                (with_submodule_status w f2) datadir).
Proof.
  intros H.
  enough (E : verify_git_integrity_or_abort (with_submodule_status w f1) datadir
              = verify_git_integrity_or_abort
                  (with_submodule_status w f2) datadir)
    by (rewrite E; repeat split).
  unfold verify_git_integrity_or_abort.
  rewrite !is_git_repo_eq, !bind_pair_ret.
  cbn [with_submodule_status path_exists].
  destruct (path_exists w (os_path_join datadir ".git"));
    cbn [negb]; [|reflexivity].
  change (have_git (with_submodule_status w f1)) with (have_git w).
  change (have_git (with_submodule_status w f2)) with (have_git w).
  destruct (have_git w) as [[git|e] t0]; [|reflexivity].
  rewrite !bind_pair_ret. destruct git; cbn [negb]; [|reflexivity].
  rewrite !loop_of_listing.
  pose proof (status_trace_with w f1 datadir) as T1.
  pose proof (status_trace_with w f2 datadir) as T2.
  destruct (run_in_dir (with_submodule_status w f1) datadir
              "git submodule status") as [[out1|e1] t1];
    destruct (run_in_dir (with_submodule_status w f2) datadir
                "git submodule status") as [[out2|e2] t2];
    cbn [result trace fst snd same_but_markers] in *;
    try contradiction; subst t1 t2.
  - rewrite !bind_pair_ret.
    rewrite (check_all_markers w f1 f2 datadir _ _ H). reflexivity.
  - subst e2. reflexivity.
Qed.

Lemma status_marker_is_ignored_witness :
  result (verify_git_integrity_or_abort
            (with_submodule_status world_clean
               (fun _ => (0%Z, lines [" abc1234 A"; " def5678 B"])))
            "/repo")
  = result (verify_git_integrity_or_abort
              (with_submodule_status world_clean
                 (fun _ => (0%Z, lines ["+abc1234 A"; "Udef5678 B"])))
              "/repo").
Proof.
  apply (status_marker_is_ignored world_clean
           (fun _ => (0%Z, lines [" abc1234 A"; " def5678 B"]))
           (fun _ => (0%Z, lines ["+abc1234 A"; "Udef5678 B"])) "/repo").
  cbn. repeat constructor.
Defined.

(** ** The fields of a line *)

Lemma split_first_field (sep : ascii) (a b : string) :
  contains sep a = false ->
  split sep (a ++ String sep b) = a :: split sep b.
Proof.
  induction a as [|c a IH]; simpl.
  - intros _. now rewrite Ascii.eqb_refl.
  - intros H. apply orb_false_iff in H as [Hc Ha].
    rewrite Hc, (IH Ha). reflexivity.
Qed.

Lemma split_second_field (name extra : string) :
  contains " " name = false ->
  extra = "" \/ startswith " " extra = true ->
  exists fields, split " " (name ++ extra) = name :: fields.
Proof.
  intros Hname [-> | Hextra].
  - exists []. rewrite append_nil_r. now apply split_no_sep.
  - destruct extra as [|c extra]; [discriminate|].
    simpl in Hextra. apply Ascii.eqb_eq in Hextra. subst c.
    exists (split " " extra). now apply split_first_field.
Qed.

(** C3, as the code has it.  The first byte of a line is the status
    marker and the remainder is cut at every single space byte: the field
    before the first space is the hash, the field between the first and the
    second space (or the end of the line) is the name, and whatever follows
    a second space is ignored.  Only the space byte separates, one cut per
    space: with two spaces between hash and name the name is empty. *)
Theorem submodule_of_line_fields (w : World) (marker : ascii)
    (hash name extra : string) :
  contains " " hash = false ->
  contains " " name = false ->
  extra = "" \/ startswith " " extra = true ->
  fs_decodable w name = true ->
  fs_decodable w "" = true ->
  submodule_of_line w (String marker (hash ++ " " ++ name ++ extra))
  = Ret (marker, hash, name)
  /\ submodule_of_line w (String marker (hash ++ "  " ++ name ++ extra))
     = Ret (marker, hash, "").
Proof.
  intros Hhash Hname Hextra Hdec Hdec0. unfold submodule_of_line. split.
  - change (hash ++ " " ++ name ++ extra)
      with (hash ++ String " " (name ++ extra)).
    rewrite (split_first_field _ _ _ Hhash).
    destruct (split_second_field name extra Hname Hextra) as [fields ->].
    now rewrite Hdec.
  - change (hash ++ "  " ++ name ++ extra)
      with (hash ++ String " " (String " " (name ++ extra))).
    rewrite (split_first_field _ _ _ Hhash).
    cbn [split Ascii.eqb Bool.eqb]. now rewrite Hdec0.
Qed.

Lemma submodule_of_line_fields_witness :
  submodule_of_line world_clean "+abc1234 lib/typeshed (heads/master)"
  = Ret ("+"%char, "abc1234", "lib/typeshed")
  /\ submodule_of_line world_clean "+abc1234  lib/typeshed (heads/master)"
     = Ret ("+"%char, "abc1234", "").
Proof.
  exact (submodule_of_line_fields world_clean "+"%char "abc1234"
           "lib/typeshed" " (heads/master)"
           eq_refl eq_refl (or_intror eq_refl) eq_refl eq_refl).
Defined.

(** C3 with a cut at runs of whitespace does not hold.  With two spaces
    between the hash and the name, cutting at runs of whitespace gives the
    name [lib/typeshed]; the code yields the empty name. *)
Lemma whitespace_run_not_skipped :
  spec_submodule_of_line " abc1234  lib/typeshed"
  = Some (" "%char, "abc1234", "lib/typeshed")
  /\ submodule_of_line world_clean " abc1234  lib/typeshed"
     = Ret (" "%char, "abc1234", "")
  /\ submodule_of_line world_clean " abc1234  lib/typeshed"
     <> Ret (" "%char, "abc1234", "lib/typeshed").
Proof.
  repeat split. discriminate.
Qed.

(** ** The probe for [git] *)

(** What [have_git] does for each way the probe can end. *)
Lemma have_git_cases (w : World) :
  match spawn w probe_argv with
  | Completed rc out =>
      have_git w = (Ret (rc =? 0)%Z, [Spawn probe_argv])
  | ExecFailed =>
      have_git w = (Throw FileNotFoundError, [Spawn probe_argv])
  end.
Proof.
  unfold have_git, check_output, probe_argv.
  cbn -[spawn]. destruct (spawn w ["git"; "config"; "-l"]) as [|rc out].
  - reflexivity.
  - destruct (rc =? 0)%Z; reflexivity.
Qed.

(** C2 at the failing input.  On a host where the [git] executable is not
    on the search path, [have_git] does not return [False]: starting the
    probe raises [FileNotFoundError], which the handler for
    [CalledProcessError] lets through. *)
Theorem have_git_raises_without_git :
  have_git world_no_git = (Throw FileNotFoundError, [Spawn probe_argv]).
Proof. reflexivity. Qed.

(** When the probe runs and fails, the check stops at one warning. *)
Lemma verify_warns_when_probe_fails (w : World) (datadir : string)
    (rc : Z) (out : string) :
  path_exists w (os_path_join datadir ".git") = true ->
  spawn w probe_argv = Completed rc out ->
  rc <> 0%Z ->
  verify_git_integrity_or_abort w datadir
  = (Ret tt,
     [Exists (os_path_join datadir ".git"); Spawn probe_argv;
      Print "Warning: Couldn't check git integrity. git executable not in path."]).
Proof.
  intros Hroot Hspawn Hrc.
  unfold verify_git_integrity_or_abort.
  rewrite is_git_repo_eq, bind_pair_ret, Hroot. cbn [negb].
  pose proof (have_git_cases w) as Hg. rewrite Hspawn in Hg.
  apply Z.eqb_neq in Hrc. rewrite Hrc in Hg. rewrite Hg.
  reflexivity.
Qed.

(** C5 at the failing input.  The root is under version control and no
    [git] executable is on the search path: [verify_git_integrity_or_abort]
    prints no warning and does not return; the [FileNotFoundError] of the
    probe ends it. *)
Theorem verify_raises_without_git :
  verify_git_integrity_or_abort world_no_git "/repo"
  = (Throw FileNotFoundError, [Exists "/repo/.git"; Spawn probe_argv])
  /\ printed (trace (verify_git_integrity_or_abort world_no_git "/repo")) = [].
Proof. split; reflexivity. Qed.

(* ================================================================= *)
(** * Further properties of the module *)

(** ** Before the loop *)

(** X1.  A directory with no [.git] entry is none of the checker's
    business: [verify_git_integrity_or_abort] returns after the one file
    probe, starts no process and prints nothing. *)
Theorem verify_outside_repository (w : World) (datadir : string) :
  path_exists w (os_path_join datadir ".git") = false ->
  verify_git_integrity_or_abort w datadir
  = (Ret tt, [Exists (os_path_join datadir ".git")]).
Proof.
  intros H. unfold verify_git_integrity_or_abort.
  now rewrite is_git_repo_eq, bind_pair_ret, H.
Qed.

Lemma verify_outside_repository_witness :
  verify_git_integrity_or_abort world_clean "/tmp"
  = (Ret tt, [Exists "/tmp/.git"]).
Proof.
  exact (verify_outside_repository world_clean "/tmp" eq_refl).
Defined.

(** X2.  When [git config -l] runs and exits with a status other than 0,
    [verify_git_integrity_or_abort] prints the one warning and returns:
    the process is not ended, no shell is started and no submodule is
    looked at, whatever the checkout holds. *)
Theorem failed_probe_warns_once (w : World) (datadir : string)
    (rc : Z) (out : string) :
  path_exists w (os_path_join datadir ".git") = true ->
  spawn w probe_argv = Completed rc out ->
  rc <> 0%Z ->
  result (verify_git_integrity_or_abort w datadir) = Ret tt
  /\ printed (trace (verify_git_integrity_or_abort w datadir))
     = ["Warning: Couldn't check git integrity. git executable not in path."]
  /\ filter is_command (trace (verify_git_integrity_or_abort w datadir))
     = [Spawn probe_argv].
Proof.
  intros Hroot Hspawn Hrc.
  rewrite (verify_warns_when_probe_fails w datadir rc out Hroot Hspawn Hrc).
  repeat split.
Qed.

Lemma failed_probe_warns_once_witness :
  result (verify_git_integrity_or_abort world_broken_git "/repo") = Ret tt
  /\ printed (trace (verify_git_integrity_or_abort world_broken_git "/repo"))
     = ["Warning: Couldn't check git integrity. git executable not in path."].
Proof.
  destruct (failed_probe_warns_once world_broken_git "/repo"
              128%Z EmptyString eq_refl eq_refl) as (R & P & _).
  - discriminate.
  - split; assumption.
Defined.

(** X6.  When the listing cannot be obtained, whatever [run_in_dir] raises
    for [git submodule status] is what [verify_git_integrity_or_abort]
    ends with; nothing is printed and no submodule is looked at. *)
Theorem listing_failure_propagates (w : World) (datadir : string) (e : exn) :
  path_exists w (os_path_join datadir ".git") = true ->
  result (have_git w) = Ret true ->
  result (run_in_dir w datadir "git submodule status") = Throw e ->
  result (verify_git_integrity_or_abort w datadir) = Throw e
  /\ trace (verify_git_integrity_or_abort w datadir) = prelude_trace w datadir
  /\ printed (trace (verify_git_integrity_or_abort w datadir)) = [].
Proof.
  intros Hroot Hgit Hout.
  assert (E : verify_git_integrity_or_abort w datadir
              = (Throw e, prelude_trace w datadir)).
  { unfold verify_git_integrity_or_abort, prelude_trace.
    rewrite is_git_repo_eq, bind_pair_ret, Hroot. cbn [negb].
    destruct (have_git w) as [[git|e0] t0]; cbn [result fst] in Hgit;
      [|discriminate].
    injection Hgit as ->. rewrite bind_pair_ret. cbn [negb].
    rewrite loop_of_listing.
    rewrite (bind_throw _ _ e Hout). reflexivity. }
  rewrite E. cbn [result trace fst snd]. repeat split.
  apply silent_printed, prelude_silent.
Qed.

Lemma listing_failure_propagates_witness :
  result (verify_git_integrity_or_abort world_no_listing "/repo")
  = Throw (CalledProcessError 128)
  /\ printed (trace (verify_git_integrity_or_abort world_no_listing "/repo"))
     = [].
Proof.
  destruct (listing_failure_propagates world_no_listing "/repo"
              (CalledProcessError 128) eq_refl eq_refl eq_refl)
    as (R & _ & P).
  split; assumption.
Defined.

(** ** The verdicts on one submodule *)

(** X5.  A submodule whose directory is not a repository is reported
    without running anything in it: after the file probe come the four
    lines of the diagnostic and the exit with status 1, and no process or
    shell command. *)
Theorem uninitialized_submodule_runs_nothing (w : World)
    (datadir : string) (status : ascii) (revision name : string) :
  has_repo w datadir name = false ->
  check_submodule w datadir (status, revision, name)
  = (Throw (SystemExit 1),
     [Exists (os_path_join (os_path_join datadir name) ".git");
      Print ("Submodule '" ++ name ++ "' not initialized.");
      Print "Please run:";
      Print ("  cd " ++ quote datadir);
      Print ("  git submodule init " ++ name)])
  /\ existsb is_command
       (trace (check_submodule w datadir (status, revision, name))) = false.
Proof.
  unfold has_repo, check_submodule. intros H.
  rewrite is_git_repo_eq, bind_pair_ret, H. cbn [negb].
  split; reflexivity.
Qed.

Lemma uninitialized_submodule_runs_nothing_witness :
  existsb is_command
    (trace (check_submodule world_AB "/repo" ("-"%char, "0123456", "C")))
  = false.
Proof.
  exact (proj2 (uninitialized_submodule_runs_nothing world_AB "/repo"
                  "-"%char "0123456" "C" eq_refl)).
Defined.

Lemma run_git_in_no_extra w dir argv :
  argv_eqb argv extra_argv = false ->
  existsb is_extra_query (trace (run_git_in w dir argv)) = false.
Proof.
  intros H. unfold run_git_in.
  destruct (contains Ch.nul dir); [reflexivity|].
  destruct (sh_cd w (proc_cwd w) [dir]) as [[st o] d].
  destruct (sh_exec w d argv) as [rc o'].
  cbn [trace snd existsb is_extra_query]. now rewrite H.
Qed.

Lemma trace_bind_ret_nil {A B} (m : M A) (f : A -> B) :
  trace (x <- m ;; ret (f x)) = trace m.
Proof.
  destruct m as [[a|e] t]; [|reflexivity].
  rewrite bind_pair_ret. cbn. apply app_nil_r.
Qed.

(** X4.  Tracked changes come first: for a submodule that is dirty the
    check stops at the warning and [git clean --dry-run -d] is never run
    in it. *)
Theorem dirty_submodule_skips_clean_query (w : World) (datadir : string)
    (status : ascii) (revision name : string) :
  has_repo w datadir name = true ->
  result (git_revision w (os_path_join datadir name)) = Ret revision ->
  result (is_dirty w (os_path_join datadir name)) = Ret true ->
  existsb is_extra_query
    (trace (check_submodule w datadir (status, revision, name))) = false.
Proof.
  unfold has_repo, check_submodule. intros Hrepo Hrev Hdirty.
  rewrite is_git_repo_eq, bind_pair_ret, Hrepo. cbn [negb].
  assert (N1 : existsb is_extra_query
                 (trace (git_revision w (os_path_join datadir name))) = false).
  { unfold git_revision. rewrite trace_bind_ret_nil, run_revision.
    now apply run_git_in_no_extra. }
  assert (N2 : existsb is_extra_query
                 (trace (is_dirty w (os_path_join datadir name))) = false).
  { unfold is_dirty. rewrite trace_bind_ret_nil, run_dirty.
    now apply run_git_in_no_extra. }
  destruct (git_revision w (os_path_join datadir name)) as [[h|e] t1];
    cbn [result trace fst snd] in *; [|discriminate].
  injection Hrev as ->. rewrite bind_pair_ret, String.eqb_refl. cbn [negb].
  destruct (is_dirty w (os_path_join datadir name)) as [[b|e] t2];
    cbn [result trace fst snd] in *; [|discriminate].
  injection Hdirty as ->. rewrite bind_pair_ret.
  cbn [trace snd app existsb is_extra_query orb].
  rewrite !existsb_app, N1, N2. reflexivity.
Qed.

Lemma dirty_submodule_skips_clean_query_witness :
  existsb is_extra_query
    (trace (check_submodule (world_dirty listing_AB) "/repo"
              (" "%char, "abc1234", "A"))) = false.
Proof.
  exact (dirty_submodule_skips_clean_query (world_dirty listing_AB) "/repo"
           " "%char "abc1234" "A" eq_refl eq_refl eq_refl).
Defined.

Lemma check_submodule_untracked w datadir status revision name :
  has_repo w datadir name = true ->
  result (git_revision w (os_path_join datadir name)) = Ret revision ->
  result (is_dirty w (os_path_join datadir name)) = Ret false ->
  result (has_extra_files w (os_path_join datadir name)) = Ret true ->
  result (check_submodule w datadir (status, revision, name)) = Ret tt
  /\ printed (trace (check_submodule w datadir (status, revision, name)))
     = [extra_warning name].
Proof.
  unfold has_repo, check_submodule. intros Hrepo Hrev Hdirty Hextra.
  rewrite is_git_repo_eq, bind_pair_ret, Hrepo. cbn [negb].
  pose proof (silent_printed _
    (git_revision_silent w (os_path_join datadir name))) as Hs1.
  pose proof (silent_printed _
    (is_dirty_silent w (os_path_join datadir name))) as Hs2.
  pose proof (silent_printed _
    (has_extra_files_silent w (os_path_join datadir name))) as Hs3.
  destruct (git_revision w (os_path_join datadir name)) as [[h|e] t1];
    cbn [result trace fst snd] in *; [|discriminate].
  injection Hrev as ->. rewrite bind_pair_ret, String.eqb_refl. cbn [negb].
  destruct (is_dirty w (os_path_join datadir name)) as [[b|e] t2];
    cbn [result trace fst snd] in *; [|discriminate].
  injection Hdirty as ->. rewrite bind_pair_ret.
  destruct (has_extra_files w (os_path_join datadir name)) as [[b|e] t3];
    cbn [result trace fst snd] in *; [|discriminate].
  injection Hextra as ->. rewrite bind_pair_ret.
  split; [reflexivity|].
  cbn [result trace fst snd app printed].
  rewrite !printed_app, Hs1, Hs2, Hs3. reflexivity.
Qed.

(** X3.  A submodule at its recorded revision, with no tracked change but
    with files that are not tracked, gets exactly one warning, the one
    about untracked files that names it; the check of the submodule
    returns and the run goes on with the entries after it. *)
Theorem untracked_files_warn_once (w : World) (datadir output : string)
    (pre : list string) (line : string) (rest : list string)
    (status : ascii) (revision name : string) :
  path_exists w (os_path_join datadir ".git") = true ->
  result (have_git w) = Ret true ->
  result (run_in_dir w datadir "git submodule status") = Ret output ->
  splitlines output = (pre ++ line :: rest)%list ->
  Forall (completes w datadir) pre ->
  submodule_of_line w line = Ret (status, revision, name) ->
  has_repo w datadir name = true ->
  result (git_revision w (os_path_join datadir name)) = Ret revision ->
  result (is_dirty w (os_path_join datadir name)) = Ret false ->
  result (has_extra_files w (os_path_join datadir name)) = Ret true ->
  result (check_submodule w datadir (status, revision, name)) = Ret tt
  /\ result (verify_git_integrity_or_abort w datadir)
     = result (check_all w datadir rest)
  /\ printed (trace (verify_git_integrity_or_abort w datadir))
     = (printed (trace (check_all w datadir pre))
        ++ [extra_warning name]
        ++ printed (trace (check_all w datadir rest)))%list.
Proof.
  intros Hroot Hgit Hout Hlines Hpre Hline Hrepo Hrev Hdirty Hextra.
  destruct (check_submodule_untracked w datadir status revision name
              Hrepo Hrev Hdirty Hextra) as [Re Pe].
  destruct (verify_listing w datadir output Hroot Hgit Hout) as [R T].
  rewrite Hlines in R, T.
  destruct (check_all_completes w datadir pre (line :: rest) Hpre)
    as [Rp Tp].
  rewrite (check_all_cons w datadir line rest _ Hline) in Rp, Tp.
  destruct (result_bind_ret (check_submodule w datadir (status, revision, name))
              (fun _ => check_all w datadir rest) tt Re) as [Rb Tb].
  rewrite Rb in Rp. rewrite Tb in Tp.
  rewrite R, T, Rp, Tp.
  repeat split; try assumption.
  rewrite !printed_app, Pe.
  rewrite (silent_printed _ (prelude_silent w datadir)). reflexivity.
Qed.

Lemma untracked_files_warn_once_witness :
  result (verify_git_integrity_or_abort world_untracked "/repo") = Ret tt
  /\ printed (trace (verify_git_integrity_or_abort world_untracked "/repo"))
     = ["Warning: git module 'A' has untracked files."].
Proof.
  destruct (untracked_files_warn_once world_untracked "/repo"
              listing_AB [] " abc1234 A" [" def5678 B"]
              " "%char "abc1234" "A"
              eq_refl eq_refl eq_refl eq_refl (Forall_nil _)
              eq_refl eq_refl eq_refl eq_refl eq_refl)
    as (_ & R & P).
  split; [rewrite R | rewrite P]; reflexivity.
Defined.

Lemma check_submodule_query_fails w datadir status revision name e :
  has_repo w datadir name = true ->
  query_fails w datadir revision name e ->
  result (check_submodule w datadir (status, revision, name)) = Throw e
  /\ printed (trace (check_submodule w datadir (status, revision, name)))
     = [].
Proof.
  unfold has_repo, query_fails, check_submodule. intros Hrepo Hq.
  rewrite is_git_repo_eq, bind_pair_ret, Hrepo. cbn [negb].
  pose proof (silent_printed _
    (git_revision_silent w (os_path_join datadir name))) as Hs1.
  pose proof (silent_printed _
    (is_dirty_silent w (os_path_join datadir name))) as Hs2.
  pose proof (silent_printed _
    (has_extra_files_silent w (os_path_join datadir name))) as Hs3.
  destruct (git_revision w (os_path_join datadir name)) as [[h|e1] t1];
    cbn [result trace fst snd] in *.
  - destruct Hq as [Hq | [(Hrev & Hq) | (Hrev & Hd & Hq)]];
      [discriminate | |];
      injection Hrev as ->;
      rewrite bind_pair_ret, String.eqb_refl; cbn [negb];
      destruct (is_dirty w (os_path_join datadir name)) as [[b|e2] t2];
      cbn [result trace fst snd] in *; try discriminate.
    + injection Hq as ->. cbn [bind result trace fst snd printed app].
      rewrite !printed_app, Hs1, Hs2. split; reflexivity.
    + injection Hd as ->. rewrite bind_pair_ret.
      destruct (has_extra_files w (os_path_join datadir name))
        as [[b|e3] t3]; cbn [result trace fst snd] in *; [discriminate|].
      injection Hq as ->. cbn [bind result trace fst snd printed app].
      rewrite !printed_app, Hs1, Hs2, Hs3. split; reflexivity.
  - destruct Hq as [Hq | [(Hrev & _) | (Hrev & _)]]; try discriminate.
    injection Hq as ->. cbn [bind result trace fst snd printed app].
    rewrite Hs1. split; reflexivity.
Qed.

(** X7.  A query that fails inside a submodule (its head cannot be read,
    or its status or its clean listing cannot be obtained) is not turned
    into a diagnostic: the exception of the failed command is the outcome
    of [verify_git_integrity_or_abort], nothing is printed for that
    submodule and the entries after it are not reached. *)
Theorem query_failure_propagates (w : World) (datadir output : string)
    (pre : list string) (line : string) (rest : list string)
    (status : ascii) (revision name : string) (e : exn) :
  path_exists w (os_path_join datadir ".git") = true ->
  result (have_git w) = Ret true ->
  result (run_in_dir w datadir "git submodule status") = Ret output ->
  splitlines output = (pre ++ line :: rest)%list ->
  Forall (completes w datadir) pre ->
  submodule_of_line w line = Ret (status, revision, name) ->
  has_repo w datadir name = true ->
  query_fails w datadir revision name e ->
  result (verify_git_integrity_or_abort w datadir) = Throw e
  /\ printed (trace (verify_git_integrity_or_abort w datadir))
     = printed (trace (check_all w datadir pre))
  /\ trace (verify_git_integrity_or_abort w datadir)
     = (prelude_trace w datadir
        ++ trace (check_all w datadir (pre ++ [line])))%list.
Proof.
  intros Hroot Hgit Hout Hlines Hpre Hline Hrepo Hq.
  destruct (check_submodule_query_fails w datadir status revision name e
              Hrepo Hq) as [Re Pe].
  destruct (verify_listing w datadir output Hroot Hgit Hout) as [R T].
  rewrite Hlines in R, T.
  assert (Hall : forall tail,
             check_all w datadir (pre ++ line :: tail)
             = (Throw e,
                (trace (check_all w datadir pre)
                 ++ trace (check_submodule w datadir
                             (status, revision, name)))%list)).
  { intros tail.
    destruct (check_all_completes w datadir pre (line :: tail) Hpre)
      as [Rp Tp].
    rewrite (M_eta (check_all w datadir (pre ++ line :: tail))), Rp, Tp.
    rewrite (check_all_cons w datadir line tail _ Hline).
    now rewrite (bind_throw _ _ e Re). }
  rewrite R, T, !Hall. cbn [result trace fst snd].
  repeat split.
  rewrite !printed_app, Pe, app_nil_r.
  now rewrite (silent_printed _ (prelude_silent w datadir)).
Qed.

Lemma query_failure_propagates_witness :
  result (verify_git_integrity_or_abort world_broken_sub "/repo")
  = Throw (CalledProcessError 128)
  /\ printed (trace (verify_git_integrity_or_abort world_broken_sub "/repo"))
     = [].
Proof.
  destruct (query_failure_propagates world_broken_sub "/repo"
              listing_AB [] " abc1234 A" [" def5678 B"]
              " "%char "abc1234" "A" (CalledProcessError 128)
              eq_refl eq_refl eq_refl eq_refl (Forall_nil _)
              eq_refl eq_refl (or_introl eq_refl))
    as (R & P & _).
  split; [exact R | rewrite P; reflexivity].
Defined.

(** X16.  An empty line in the listing has no first byte: reading the
    status marker raises [IndexError], which ends
    [verify_git_integrity_or_abort] when the line is reached, with no
    diagnostic. *)
Theorem blank_line_raises (w : World) (datadir output : string)
    (pre rest : list string) :
  path_exists w (os_path_join datadir ".git") = true ->
  result (have_git w) = Ret true ->
  result (run_in_dir w datadir "git submodule status") = Ret output ->
  splitlines output = (pre ++ EmptyString :: rest)%list ->
  Forall (completes w datadir) pre ->
  result (verify_git_integrity_or_abort w datadir) = Throw IndexError
  /\ printed (trace (verify_git_integrity_or_abort w datadir))
     = printed (trace (check_all w datadir pre)).
Proof.
  intros Hroot Hgit Hout Hlines Hpre.
  destruct (verify_listing w datadir output Hroot Hgit Hout) as [R T].
  rewrite Hlines in R, T.
  destruct (check_all_completes w datadir pre (EmptyString :: rest) Hpre)
    as [Rp Tp].
  rewrite R, T, Rp, Tp.
  change (check_all w datadir (EmptyString :: rest))
    with (@throw unit IndexError).
  cbn [throw result trace fst snd]. split; [reflexivity|].
  rewrite !printed_app, app_nil_r.
  now rewrite (silent_printed _ (prelude_silent w datadir)).
Qed.

Lemma blank_line_raises_witness :
  result (verify_git_integrity_or_abort
            (world_dirty (String Ch.lf " def5678 B")) "/repo")
  = Throw IndexError.
Proof.
  exact (proj1 (blank_line_raises
                  (world_dirty (String Ch.lf " def5678 B")) "/repo"
                  (String Ch.lf " def5678 B") [] [" def5678 B"]
                  eq_refl eq_refl eq_refl eq_refl (Forall_nil _))).
Defined.

(** ** Running a command in a directory *)

(** X8.  [run_in_dir] joins [cd] and the command with [;], so the exit
    status of [cd] is never looked at: the command runs in whatever
    directory [cd] leaves the shell in, success and failure of
    [run_in_dir] are those of the command alone, and a [cd] that fails is
    not reported. *)
Theorem cd_status_is_ignored (w : World) (dir command : string)
    (args : list string) (st rc : Z) (o out d : string) :
  contains Ch.nul dir = false ->
  contains Ch.nul command = false ->
  Sh.lex command = Some [("git" :: args)] ->
  sh_cd w (proc_cwd w) [dir] = (st, o, d) ->
  sh_exec w d ("git" :: args) = (rc, out) ->
  run_in_dir w dir command
  = ((if (rc =? 0)%Z then Ret (o ++ out) else Throw (CalledProcessError rc)),
     [ShCd (proc_cwd w) [dir]; ShExec d ("git" :: args)]).
Proof.
  intros Hd Hc Hlex Hcd Hexec.
  rewrite (run_in_dir_git w dir command args Hc Hlex).
  unfold run_git_in. now rewrite Hd, Hcd, Hexec.
Qed.

Lemma cd_status_is_ignored_witness :
  sh_cd world_lost "/" ["/missing"] = (1%Z, EmptyString, "/")
  /\ run_in_dir world_lost "/missing" "git rev-parse HEAD"
     = (Ret (lines ["fff0000"]),
        [ShCd "/" ["/missing"]; ShExec "/" revision_argv]).
Proof.
  split; [reflexivity|].
  exact (cd_status_is_ignored world_lost "/missing" "git rev-parse HEAD"
           ["rev-parse"; "HEAD"] 1%Z 0%Z EmptyString (lines ["fff0000"]) "/"
           eq_refl eq_refl eq_refl eq_refl eq_refl).
Defined.

(** ** Quoting *)

Module QuoteFacts.
Import Sh.

(** The word written by [pipes.quote], read by the shell, is the string
    quoted; the word is still open, as any word is until a blank or an
    operator ends it. *)
Lemma lex_quote (s rest : string) args cmds :
  lex_from Unquoted None args cmds (quote s ++ rest)
  = lex_from Unquoted (Some s) args cmds rest.
Proof.
  unfold quote. destruct s as [|c s].
  - reflexivity.
  - destruct (all_safe (String c s)) eqn:Hs.
    + now apply ShFacts.lex_safe_word_start.
    + change (String Ch.squote (replace_squote (String c s) ++ "'") ++ rest)
        with (String Ch.squote ((replace_squote (String c s) ++ "'") ++ rest)).
      rewrite append_assoc.
      change ("'" ++ rest) with (String Ch.squote rest).
      change (lex_from InSingle (Some EmptyString) args cmds
                (replace_squote (String c s) ++ String Ch.squote rest)
              = lex_from Unquoted (Some (String c s)) args cmds rest).
      now rewrite ShFacts.lex_single_quoted.
Qed.

Lemma lex_quote_alone (s : string) : lex (quote s) = Some [[s]].
Proof.
  unfold lex. rewrite <- (append_nil_r (quote s)), lex_quote. reflexivity.
Qed.

End QuoteFacts.

(** X9.  Round trip of [pipes.quote]: whatever the string, the shell
    reads the quoted text as one word, and that word is the string; in
    particular the quoted text is never empty, so even the empty string
    stays an operand. *)
Theorem quote_reads_back (s : string) :
  Sh.lex (quote s) = Some [[s]]
  /\ Sh.lex ("cd " ++ quote s) = Some [["cd"; s]]
  /\ quote s <> EmptyString.
Proof.
  split; [apply QuoteFacts.lex_quote_alone|]. split.
  - unfold Sh.lex.
    change ("cd " ++ quote s)
      with (String "c" (String "d" (String " " (quote s)))).
    cbn [Sh.lex_from]. cbn -[Sh.lex_from quote].
    change (Sh.lex_from Sh.Unquoted None ["cd"] [] (quote s)
            = Some [["cd"; s]]).
    rewrite <- (append_nil_r (quote s)), QuoteFacts.lex_quote. reflexivity.
  - intros H. pose proof (QuoteFacts.lex_quote_alone s) as L.
    rewrite H in L. discriminate.
Qed.

(** X10.  [pipes.quote] is injective: two directories are written as the
    same shell word only if they are the same directory. *)
Theorem quote_injective (a b : string) : quote a = quote b -> a = b.
Proof.
  intros H. pose proof (QuoteFacts.lex_quote_alone a) as La.
  rewrite H, QuoteFacts.lex_quote_alone in La. congruence.
Qed.

Lemma quote_injective_witness : odd_dir = odd_dir.
Proof. exact (quote_injective odd_dir odd_dir eq_refl). Defined.

(** X11.  The remedy printed for a submodule that is not initialised or
    not updated can be pasted into a shell: its third line, read by the
    shell, is the command [cd] with the directory itself as its single
    operand, whatever characters the directory is made of. *)
Theorem remedy_cd_line_reads_back (name dir : string) :
  printed (trace (error_submodule_not_initialized name dir))
  = ["Submodule '" ++ name ++ "' not initialized.";
     "Please run:";
     "  cd " ++ quote dir;
     "  git submodule init " ++ name]
  /\ printed (trace (error_submodule_not_updated name dir))
     = ["Submodule '" ++ name ++ "' not updated.";
        "Please run:";
        "  cd " ++ quote dir;
        "  git submodule update " ++ name]
  /\ Sh.lex ("  cd " ++ quote dir) = Some [["cd"; dir]].
Proof.
  split; [reflexivity|]. split; [reflexivity|].
  unfold Sh.lex.
  change ("  cd " ++ quote dir)
    with (String " " (String " " (String "c" (String "d" (String " "
            (quote dir)))))).
  cbn [Sh.lex_from]. cbn -[Sh.lex_from quote].
  change (Sh.lex_from Sh.Unquoted None ["cd"] [] (quote dir)
          = Some [["cd"; dir]]).
  rewrite <- (append_nil_r (quote dir)), QuoteFacts.lex_quote. reflexivity.
Qed.

(** ** Whitespace *)

Lemma rstrip_empty (s : string) :
  String.eqb (rstrip s) EmptyString = all_space s.
Proof.
  induction s as [|c s IH]; [reflexivity|].
  cbn [rstrip all_space]. destruct (rstrip s) as [|d r].
  - cbn in IH. rewrite <- IH, andb_true_r.
    destruct (Ch.is_py_space c); reflexivity.
  - cbn in IH. rewrite <- IH, andb_false_r. reflexivity.
Qed.

Lemma all_space_lstrip (s : string) : all_space (lstrip s) = all_space s.
Proof.
  induction s as [|c s IH]; [reflexivity|].
  cbn [lstrip all_space]. destruct (Ch.is_py_space c) eqn:E.
  - exact IH.
  - cbn [all_space]. now rewrite E.
Qed.

Lemma strip_empty (s : string) :
  String.eqb (strip s) EmptyString = all_space s.
Proof.
  unfold strip. now rewrite rstrip_empty, all_space_lstrip.
Qed.

Lemma lstrip_all_space (a s : string) :
  all_space a = true -> lstrip (a ++ s) = lstrip s.
Proof.
  induction a as [|c a IH]; [reflexivity|].
  cbn [all_space]. intros H. apply andb_true_iff in H as [Hc Ha].
  cbn [append lstrip]. rewrite Hc. now apply IH.
Qed.

Lemma rstrip_no_space (h b : string) :
  no_space h = true -> all_space b = true -> rstrip (h ++ b) = h.
Proof.
  intros Hh Hb. induction h as [|c h IH].
  - cbn [append]. pose proof (rstrip_empty b) as E. rewrite Hb in E.
    now apply String.eqb_eq in E.
  - cbn [no_space] in Hh. apply andb_true_iff in Hh as [Hc Hh].
    cbn [append rstrip]. rewrite (IH Hh).
    destruct h; [|reflexivity].
    apply negb_true_iff in Hc. now rewrite Hc.
Qed.

Lemma strip_framed (a h b : string) :
  all_space a = true -> no_space h = true -> all_space b = true ->
  strip (a ++ h ++ b) = h.
Proof.
  intros Ha Hh Hb. unfold strip. rewrite (lstrip_all_space _ _ Ha).
  destruct h as [|c h].
  - cbn [append]. pose proof (strip_empty b) as E. unfold strip in E.
    rewrite Hb in E. now apply String.eqb_eq in E.
  - pose proof Hh as Hh'. cbn [no_space] in Hh'.
    apply andb_true_iff in Hh' as [Hc _]. apply negb_true_iff in Hc.
    cbn [append lstrip]. rewrite Hc.
    exact (rstrip_no_space (String c h) b Hh Hb).
Qed.



(** X15.  [git_revision] returns the revision without the whitespace
    around it: when [git rev-parse HEAD] prints a revision that holds no
    whitespace, framed by any whitespace (the newline that ends the line),
    the result is the revision itself, ready to be compared byte for byte
    with the recorded one. *)
Theorem git_revision_strips (w : World) (dir before rev after : string) :
  all_space before = true ->
  no_space rev = true ->
  all_space after = true ->
  result (run_in_dir w dir "git rev-parse HEAD")
  = Ret (before ++ rev ++ after) ->
  result (git_revision w dir) = Ret rev.
Proof.
  intros Ha Hh Hb H. unfold git_revision.
  destruct (result_bind_ret (run_in_dir w dir "git rev-parse HEAD")
              (fun out => ret (strip out)) _ H) as [R _].
  rewrite R. cbn [ret result fst]. now rewrite strip_framed.
Qed.

Lemma git_revision_strips_witness :
  result (git_revision world_clean "/repo/A") = Ret "abc1234".
Proof.
  exact (git_revision_strips world_clean "/repo/A" EmptyString "abc1234"
           newline eq_refl eq_refl eq_refl eq_refl).
Defined.

(** ** Lines *)

Lemma one_line_cons (c : ascii) (s : string) :
  one_line (String c s)
  = negb (Ascii.eqb c Ch.lf) && negb (Ascii.eqb c Ch.cr) && one_line s.
Proof.
  unfold one_line. cbn [contains].
  destruct (Ascii.eqb c Ch.lf), (Ascii.eqb c Ch.cr),
    (contains Ch.lf s), (contains Ch.cr s); reflexivity.
Qed.

Lemma one_line_app (a b : string) :
  one_line (a ++ b) = one_line a && one_line b.
Proof.
  induction a as [|c a IH]; [reflexivity|].
  cbn [append]. rewrite !one_line_cons, IH. now rewrite !andb_assoc.
Qed.

Lemma splitlines_line (l rest : string) :
  one_line l = true ->
  splitlines (l ++ String Ch.lf rest) = l :: splitlines rest.
Proof.
  induction l as [|c l IH]; [reflexivity|].
  rewrite one_line_cons. intros H.
  apply andb_true_iff in H as [H Hl]. apply andb_true_iff in H as [H1 H2].
  apply negb_true_iff in H1, H2.
  cbn [append splitlines]. rewrite H1, H2, (IH Hl). reflexivity.
Qed.

Lemma splitlines_lines (L : list string) :
  forallb one_line L = true -> splitlines (lines L) = L.
Proof.
  induction L as [|l L IH]; [reflexivity|].
  cbn [forallb]. intros H. apply andb_true_iff in H as [Hl HL].
  cbn [lines fold_right]. change (newline ++ fold_right
    (fun x acc => x ++ newline ++ acc) EmptyString L)
    with (String Ch.lf (lines L)).
  now rewrite (splitlines_line _ _ Hl), (IH HL).
Qed.

Lemma record_line w (r : ascii * string * string) :
  record_ok w r = true ->
  one_line (line_of r) = true /\ submodule_of_line w (line_of r) = Ret r.
Proof.
  destruct r as [[status sha5] name]. unfold record_ok, line_of.
  rewrite !andb_true_iff, !negb_true_iff.
  intros (((((Hst & Hh1) & Hh2) & Hn1) & Hn2) & Hdec).
  split.
  - rewrite one_line_cons in *. rewrite !one_line_app.
    apply andb_true_iff in Hst as [Hst _].
    rewrite Hst, Hh1, Hn1. reflexivity.
  - unfold submodule_of_line.
    change (sha5 ++ " " ++ name) with (sha5 ++ String " " name).
    rewrite (split_first_field _ _ _ Hh2), (split_no_sep _ _ Hn2), Hdec.
    reflexivity.
Qed.

Lemma drain_records w (recs : list (ascii * string * string)) :
  forallb (record_ok w) recs = true ->
  forallb one_line (map line_of recs) = true
  /\ drain (submodules_of_lines w (map line_of recs)) = (recs, None).
Proof.
  induction recs as [|r recs IH]; [split; reflexivity|].
  cbn [forallb map]. intros H. apply andb_true_iff in H as [Hr Hrecs].
  destruct (record_line w r Hr) as [H1 H2].
  destruct (IH Hrecs) as [IH1 IH2].
  cbn [submodules_of_lines]. rewrite H1, H2, IH1. cbn [drain].
  rewrite IH2. split; reflexivity.
Qed.

(** X12.  Round trip of the listing.  When [git submodule status] prints
    one line per submodule (marker, hash, a space, the name, a newline)
    and no field holds a space or a line terminator, [get_submodules]
    yields exactly those records, in the order printed, and then stops
    without an error. *)
Theorem get_submodules_reads_listing (w : World) (dir : string)
    (recs : list (ascii * string * string)) :
  forallb (record_ok w) recs = true ->
  result (run_in_dir w dir "git submodule status")
  = Ret (lines (map line_of recs)) ->
  exists g, result (get_submodules w dir) = Ret g
            /\ drain g = (recs, None).
Proof.
  intros Hrecs Hout.
  destruct (drain_records w recs Hrecs) as [Hlines Hdrain].
  exists (submodules_of_lines w (map line_of recs)). split; [|exact Hdrain].
  unfold get_submodules.
  destruct (result_bind_ret (run_in_dir w dir "git submodule status")
              (fun out => ret (submodules_of_lines w (splitlines out)))
              _ Hout) as [R _].
  rewrite R. cbn [ret result fst]. now rewrite splitlines_lines.
Qed.

Lemma get_submodules_reads_listing_witness :
  exists g, result (get_submodules world_clean "/repo") = Ret g
            /\ drain g = ([(" "%char, "abc1234", "A");
                           (" "%char, "def5678", "B")], None).
Proof.
  exact (get_submodules_reads_listing world_clean "/repo"
           [(" "%char, "abc1234", "A"); (" "%char, "def5678", "B")]
           eq_refl eq_refl).
Defined.

(** ** One printed text, one line *)

Lemma splitlines_one_line_step (s : string) :
  forallb one_line (splitlines s) = true
  /\ forall c, forallb one_line (splitlines (String c s)) = true.
Proof.
  induction s as [|d s [IH1 IH2]].
  - split; [reflexivity|]. intros c. cbn [splitlines].
    destruct (Ascii.eqb c Ch.lf) eqn:E1; [reflexivity|].
    destruct (Ascii.eqb c Ch.cr) eqn:E2; [reflexivity|].
    cbn [forallb]. rewrite one_line_cons, E1, E2. reflexivity.
  - split; [apply IH2|]. intros c.
    change (splitlines (String c (String d s)))
      with (if Ascii.eqb c Ch.lf then EmptyString :: splitlines (String d s)
            else if Ascii.eqb c Ch.cr then
              if Ascii.eqb d Ch.lf then EmptyString :: splitlines s
              else EmptyString :: splitlines (String d s)
            else match splitlines (String d s) with
                 | [] => [String c EmptyString]
                 | l :: ls => String c l :: ls
                 end).
    destruct (Ascii.eqb c Ch.lf) eqn:E1; [exact (IH2 d)|].
    destruct (Ascii.eqb c Ch.cr) eqn:E2.
    + destruct (Ascii.eqb d Ch.lf); [exact IH1 | exact (IH2 d)].
    + pose proof (IH2 d) as H.
      destruct (splitlines (String d s)) as [|l ls]; cbn [forallb] in *.
      * rewrite one_line_cons, E1, E2. reflexivity.
      * rewrite one_line_cons, E1, E2. exact H.
Qed.

Lemma splitlines_one_line (s : string) :
  forallb one_line (splitlines s) = true.
Proof. apply splitlines_one_line_step. Qed.

Lemma split_one_line (sep : ascii) (s : string) :
  one_line s = true -> forallb one_line (split sep s) = true.
Proof.
  induction s as [|c s IH]; [reflexivity|].
  rewrite one_line_cons. intros H. apply andb_true_iff in H as [Hc Hs].
  specialize (IH Hs). cbn [split].
  destruct (Ascii.eqb c sep); [exact IH|].
  destruct (split sep s) as [|f fs]; cbn [forallb] in *.
  - now rewrite one_line_cons, Hc.
  - apply andb_true_iff in IH as [Hf Hfs].
    now rewrite one_line_cons, Hc, Hf, Hfs.
Qed.

Lemma submodule_name_one_line w line status revision name :
  one_line line = true ->
  submodule_of_line w line = Ret (status, revision, name) ->
  one_line name = true.
Proof.
  destruct line as [|c rest]; [discriminate|].
  rewrite one_line_cons. intros H. apply andb_true_iff in H as [_ Hr].
  pose proof (split_one_line " " rest Hr) as Hf.
  unfold submodule_of_line.
  destruct (split " " rest) as [|f1 [|f2 fs]]; try discriminate.
  destruct (fs_decodable w f2); [|discriminate].
  intros E. injection E as _ _ <-.
  cbn [forallb] in Hf. apply andb_true_iff in Hf as [_ Hf].
  now apply andb_true_iff in Hf as [Hf _].
Qed.

Lemma contains_replace_squote_other (c : ascii) (s : string) :
  Ascii.eqb Ch.squote c = false -> Ascii.eqb Ch.dquote c = false ->
  contains c (replace_squote s) = contains c s.
Proof.
  unfold Ch.squote, Ch.dquote. intros H1 H2.
  induction s as [|x s IH]; [reflexivity|].
  cbn [replace_squote]. unfold Ch.squote, Ch.dquote.
  destruct (Ascii.eqb x "'") eqn:E.
  - apply Ascii.eqb_eq in E; subst x. cbn [contains].
    now rewrite H1, H2, IH.
  - cbn [contains]. now rewrite IH.
Qed.

Lemma contains_quote_other (c : ascii) (s : string) :
  Ascii.eqb Ch.squote c = false -> Ascii.eqb Ch.dquote c = false ->
  contains c (quote s) = contains c s.
Proof.
  intros H1 H2. pose proof (contains_replace_squote_other c) as R.
  specialize (fun s => R s H1 H2).
  unfold Ch.squote, Ch.dquote in *. unfold quote. destruct s as [|x s].
  - cbn [contains]. now rewrite H1.
  - destruct (all_safe (String x s)); [reflexivity|].
    unfold Ch.squote.
    change (contains c (String "'" (replace_squote (String x s) ++ "'")))
      with (Ascii.eqb "'" c
            || contains c (replace_squote (String x s) ++ "'")).
    rewrite contains_app, R, H1.
    cbn [contains orb]. rewrite H1. now rewrite !orb_false_r.
Qed.

Lemma one_line_quote (s : string) : one_line (quote s) = one_line s.
Proof.
  unfold one_line. now rewrite !contains_quote_other.
Qed.

Lemma one_line_prints_bind {A B} (m : M A) (k : A -> M B) :
  forallb one_line (printed (trace m)) = true ->
  (forall a, forallb one_line (printed (trace (k a))) = true) ->
  forallb one_line (printed (trace (bind m k))) = true.
Proof.
  destruct m as [[a|e] t]; cbn [trace snd]; intros Ht Hk; [|exact Ht].
  rewrite bind_pair_ret. cbn [trace snd].
  now rewrite printed_app, forallb_app, Ht, Hk.
Qed.

Lemma silent_one_line (t : list effect) :
  stderr_of t = EmptyString -> forallb one_line (printed t) = true.
Proof. intros H. now rewrite (silent_printed t H). Qed.

Lemma fatal_texts_one_line (what how name dir : string) :
  one_line what = true -> one_line how = true ->
  one_line dir = true -> one_line name = true ->
  forallb one_line
    ["Submodule '" ++ name ++ what; "Please run:";
     "  cd " ++ quote dir; how ++ name] = true.
Proof.
  intros Hw Hh Hd Hn. cbn [forallb].
  rewrite !one_line_app, one_line_quote, Hw, Hh, Hd, Hn. reflexivity.
Qed.

Lemma warning_text_one_line (what name : string) :
  one_line what = true -> one_line name = true ->
  forallb one_line ["Warning: git module '" ++ name ++ what] = true.
Proof.
  intros Hw Hn. cbn [forallb].
  rewrite !one_line_app, Hw, Hn. reflexivity.
Qed.

Lemma check_submodule_one_line w datadir status revision name :
  one_line datadir = true ->
  one_line name = true ->
  forallb one_line
    (printed (trace (check_submodule w datadir (status, revision, name))))
  = true.
Proof.
  intros Hd Hn. unfold check_submodule.
  apply one_line_prints_bind; [reflexivity|].
  intros [|]; cbn [negb].
  - apply one_line_prints_bind;
      [apply silent_one_line, git_revision_silent|].
    intros head. destruct (negb (revision =? head)%string).
    + exact (fatal_texts_one_line "' not updated." "  git submodule update "
               name datadir eq_refl eq_refl Hd Hn).
    + apply one_line_prints_bind;
        [apply silent_one_line, is_dirty_silent|].
      intros [|].
      * exact (warning_text_one_line "' has uncommitted changes." name
                 eq_refl Hn).
      * apply one_line_prints_bind;
          [apply silent_one_line, has_extra_files_silent|].
        intros [|]; [|reflexivity].
        exact (warning_text_one_line "' has untracked files." name
                 eq_refl Hn).
  - exact (fatal_texts_one_line "' not initialized." "  git submodule init "
             name datadir eq_refl eq_refl Hd Hn).
Qed.

Lemma check_all_one_line w datadir listing :
  one_line datadir = true ->
  forallb one_line listing = true ->
  forallb one_line (printed (trace (check_all w datadir listing))) = true.
Proof.
  intros Hd. induction listing as [|line listing IH]; [reflexivity|].
  cbn [forallb]. intros H. apply andb_true_iff in H as [Hl HL].
  unfold check_all. cbn [submodules_of_lines].
  destruct (submodule_of_line w line) as [[[status revision] name]|e] eqn:E;
    [|reflexivity].
  cbn [for_each]. apply one_line_prints_bind.
  - apply check_submodule_one_line; [exact Hd|].
    exact (submodule_name_one_line w line status revision name Hl E).
  - intros _. exact (IH HL).
Qed.

(** X13.  One text per line.  When the directory given holds no line
    terminator, no text that [verify_git_integrity_or_abort] prints holds
    one either, whatever [git] answers: a submodule name comes from one
    line of the listing, so every warning is exactly one line on stderr
    and every fatal diagnostic exactly four. *)
Theorem printed_texts_are_single_lines (w : World) (datadir : string) :
  one_line datadir = true ->
  forallb one_line
    (printed (trace (verify_git_integrity_or_abort w datadir))) = true.
Proof.
  intros Hd. unfold verify_git_integrity_or_abort.
  apply one_line_prints_bind; [reflexivity|].
  intros [|]; cbn [negb]; [|reflexivity].
  apply one_line_prints_bind; [apply silent_one_line, have_git_silent|].
  intros [|]; cbn [negb]; [|reflexivity].
  rewrite loop_of_listing.
  apply one_line_prints_bind; [apply silent_one_line, run_in_dir_silent|].
  intros out. apply check_all_one_line; [exact Hd|].
  apply splitlines_one_line.
Qed.

Lemma printed_texts_are_single_lines_witness :
  forallb one_line
    (printed (trace (verify_git_integrity_or_abort world_AB "/repo"))) = true.
Proof.
  exact (printed_texts_are_single_lines world_AB "/repo" eq_refl).
Defined.

(** ** The exit status *)

Lemma result_bind_throw {A B} (m : M A) (k : A -> M B) e :
  result (bind m k) = Throw e ->
  result m = Throw e \/ exists a, result m = Ret a /\ result (k a) = Throw e.
Proof.
  destruct m as [[a|e0] t].
  - rewrite bind_pair_ret. cbn [result fst]. intros H. right.
    exists a. split; [reflexivity | exact H].
  - cbn [bind result fst]. intros H. injection H as ->. now left.
Qed.

Lemma run_in_dir_never_exits w dir command n :
  result (run_in_dir w dir command) <> Throw (SystemExit n).
Proof.
  unfold run_in_dir, check_output_shell.
  destruct (contains Ch.nul (cd_line dir command)); [discriminate|].
  destruct (sh_run w (cd_line dir command)) as [[rc out] t].
  destruct (rc =? 0)%Z; discriminate.
Qed.

Lemma query_never_exits {A} w dir command (f : string -> A) n :
  result (out <- run_in_dir w dir command ;; ret (f out))
  <> Throw (SystemExit n).
Proof.
  intros H. apply result_bind_throw in H as [H | (a & _ & H)].
  - exact (run_in_dir_never_exits w dir command n H).
  - discriminate.
Qed.

Lemma have_git_never_exits w n : result (have_git w) <> Throw (SystemExit n).
Proof.
  pose proof (have_git_cases w) as H.
  destruct (spawn w probe_argv); rewrite H; discriminate.
Qed.

Lemma check_submodule_exit_status w datadir r n :
  result (check_submodule w datadir r) = Throw (SystemExit n) -> n = 1%Z.
Proof.
  destruct r as [[status revision] name]. unfold check_submodule.
  rewrite is_git_repo_eq, bind_pair_ret. cbn [result fst].
  destruct (path_exists w _); cbn [negb].
  - intros H. apply result_bind_throw in H as [H | (head & _ & H)].
    { exfalso. exact (query_never_exits w _ _ strip n H). }
    destruct (negb (revision =? head)%string).
    { cbn in H. congruence. }
    apply result_bind_throw in H as [H | (dirty & _ & H)].
    { exfalso.
      exact (query_never_exits w _ _
               (fun out => negb (String.eqb (strip out) EmptyString)) n H). }
    destruct dirty; [discriminate|].
    apply result_bind_throw in H as [H | (extra & _ & H)].
    { exfalso.
      exact (query_never_exits w _ _
               (fun out => negb (String.eqb (strip out) EmptyString)) n H). }
    destruct extra; discriminate.
  - cbn. congruence.
Qed.

Lemma check_all_exit_status w datadir listing n :
  result (check_all w datadir listing) = Throw (SystemExit n) -> n = 1%Z.
Proof.
  induction listing as [|line listing IH]; [discriminate|].
  unfold check_all. cbn [submodules_of_lines].
  destruct (submodule_of_line w line) as [r|e] eqn:E.
  - cbn [for_each]. intros H.
    apply result_bind_throw in H as [H | (a & _ & H)].
    + exact (check_submodule_exit_status w datadir r n H).
    + exact (IH H).
  - cbn [for_each throw result fst]. intros H. injection H as ->.
    unfold submodule_of_line in E. destruct line; [discriminate|].
    destruct (split " " line) as [|f1 [|f2 fs]]; try discriminate.
    destruct (fs_decodable w f2); discriminate.
Qed.

(** X17.  The only exit status is 1.  Whenever
    [verify_git_integrity_or_abort] ends the process through [sys.exit],
    it does so with status 1; failures of commands and of the parse end
    it with their own exception, never with an exit status. *)
Theorem exit_status_is_one (w : World) (datadir : string) (n : Z) :
  result (verify_git_integrity_or_abort w datadir) = Throw (SystemExit n) ->
  n = 1%Z.
Proof.
  unfold verify_git_integrity_or_abort.
  rewrite is_git_repo_eq, bind_pair_ret. cbn [result fst].
  destruct (path_exists w _); cbn [negb]; [|discriminate].
  intros H. apply result_bind_throw in H as [H | (git & _ & H)].
  { exfalso. exact (have_git_never_exits w n H). }
  destruct git; cbn [negb] in H; [|discriminate].
  rewrite loop_of_listing in H.
  apply result_bind_throw in H as [H | (out & _ & H)].
  { exfalso. exact (run_in_dir_never_exits w _ _ n H). }
  exact (check_all_exit_status w datadir _ n H).
Qed.

Lemma exit_status_is_one_witness :
  result (verify_git_integrity_or_abort world_AB "/repo")
  = Throw (SystemExit 1)
  /\ 1%Z = 1%Z.
Proof.
  split; [reflexivity|].
  exact (exit_status_is_one world_AB "/repo" 1%Z eq_refl).
Defined.

(** ** The directory a command runs in *)




